(** * grepwise: scripts/perf/summarize_and_compare.py

    A shallow embedding of the performance summary script: the percentile
    estimator, the reader of JMeter sample rows, the per-scenario aggregator,
    the moving-average baseline, the regression classifier and the exit-code
    policy of [main].

    Number model.  A Python [float] is modelled as an exact rational or NaN
    ([pyfloat]).  Arithmetic is exact: binary64 rounding, overflow and the
    infinities are outside the model.  Comparisons with NaN are false and
    arithmetic on NaN gives NaN, as in Python.  Python [int]s are [Z].

    Exceptions are modelled by the [result] type; every function that can
    raise in Python returns a [result].

    Library functions.  [sorted], [sum], [statistics.mean], [math.floor],
    [math.ceil], [int], [len], indexing and slicing are modelled after their
    documented behaviour.  The built-in [float] on strings is a parameter of
    the reader ([float_of_str]); [csv.DictReader] is not modelled, the reader
    starts from the rows it yields.

    File input and output (globbing the result files, the badge file, the
    markdown and JSON summaries, the history append) and the printed log
    line are not modelled: [main] is a function from the parsed result files
    and the parsed history to the summary and the exit code, and
    [read_history] is a function from the rows of the history file. *)

From Stdlib Require Import ZArith QArith Qround Lia Lqa List Sorted Permutation.
From Stdlib Require Import String Ascii PrimFloat.
From stdpp Require Import gmap strings.
Import ListNotations.

Local Open Scope Z_scope.

(** ** Exceptions *)

Inductive exn : Set :=
| IndexError
| ZeroDivisionError
| ValueError
| StatisticsError.

Inductive result (A : Type) : Type :=
| Ok (a : A)
| Raise (e : exn).

Arguments Ok {A} a.
Arguments Raise {A} e.

Definition bind {A B : Type} (r : result A) (k : A -> result B) : result B :=
  match r with
  | Ok a => k a
  | Raise e => Raise e
  end.

Notation "x <- r ;; k" := (bind r (fun x => k))
  (at level 100, r at next level, right associativity).

(** ** Python floats *)

Inductive pyfloat : Set :=
| NaN
| Fin (q : Q).

(** [math.isnan] *)
Definition isnan (x : pyfloat) : bool :=
  match x with
  | NaN => true
  | Fin _ => false
  end.

Definition Qltb (a b : Q) : bool := negb (Qle_bool b a).

(** [x < y] and [x > y] on floats: false as soon as one side is NaN. *)
Definition flt (x y : pyfloat) : bool :=
  match x, y with
  | Fin a, Fin b => Qltb a b
  | _, _ => false
  end.

Definition fgt (x y : pyfloat) : bool := flt y x.

(** [x <= y] on floats. *)
Definition fle (x y : pyfloat) : bool :=
  match x, y with
  | Fin a, Fin b => Qle_bool a b
  | _, _ => false
  end.

Definition fadd (x y : pyfloat) : pyfloat :=
  match x, y with
  | Fin a, Fin b => Fin (a + b)
  | _, _ => NaN
  end.

Definition fsub (x y : pyfloat) : pyfloat :=
  match x, y with
  | Fin a, Fin b => Fin (a - b)
  | _, _ => NaN
  end.

Definition fmul (x y : pyfloat) : pyfloat :=
  match x, y with
  | Fin a, Fin b => Fin (a * b)
  | _, _ => NaN
  end.

(** [x / y]: a zero divisor raises, also when [x] is NaN. *)
Definition fdiv (x y : pyfloat) : result pyfloat :=
  match y with
  | NaN => Ok NaN
  | Fin b =>
      if Qeq_bool b 0 then Raise ZeroDivisionError
      else match x with
           | NaN => Ok NaN
           | Fin a => Ok (Fin (a / b))
           end
  end.

(** An [int] used in float arithmetic. *)
Definition of_int (z : Z) : pyfloat := Fin (inject_Z z).

(** Numeric equality of two results of the model: both NaN, or the same
    rational number (two fractions of the same value are the same float). *)
Definition feq (x y : pyfloat) : Prop :=
  match x, y with
  | NaN, NaN => True
  | Fin a, Fin b => (a == b)%Q
  | _, _ => False
  end.

Definition result_feq (r1 r2 : result pyfloat) : Prop :=
  match r1, r2 with
  | Ok x, Ok y => feq x y
  | Raise e1, Raise e2 => e1 = e2
  | _, _ => False
  end.

(** ** Python built-ins used by the script *)

(** [len] *)
Definition len {A : Type} (l : list A) : Z := Z.of_nat (List.length l).

(** [l[i]]: a negative index counts from the end; out of range raises. *)
Definition py_index {A : Type} (l : list A) (i : Z) : result A :=
  let j := if i <? 0 then i + len l else i in
  if j <? 0 then Raise IndexError
  else match nth_error l (Z.to_nat j) with
       | Some a => Ok a
       | None => Raise IndexError
       end.

(** [l[start:]] *)
Definition py_slice_from {A : Type} (l : list A) (start : Z) : list A :=
  let s := if start <? 0 then Z.max 0 (start + len l) else start in
  skipn (Z.to_nat s) l.

(** [sorted]: Python's sort is stable and compares with [<] only.  A stable
    insertion sort gives the same list whenever [<] is a strict weak order on
    the elements, which is the case for lists without NaN. *)
Fixpoint insert_sorted {A : Type} (lt : A -> A -> bool) (x : A) (l : list A) : list A :=
  match l with
  | [] => [x]
  | y :: t => if lt y x then y :: insert_sorted lt x t else x :: y :: t
  end.

Fixpoint sorted_by {A : Type} (lt : A -> A -> bool) (l : list A) : list A :=
  match l with
  | [] => []
  | x :: t => insert_sorted lt x (sorted_by lt t)
  end.

Definition sorted (l : list pyfloat) : list pyfloat := sorted_by flt l.

(** [sum] of a list of floats, starting from the int 0. *)
Definition fsum (l : list pyfloat) : pyfloat := fold_left fadd l (of_int 0).

(** [statistics.mean]: the exact mean; raises on empty data. *)
Definition mean (l : list pyfloat) : result pyfloat :=
  match l with
  | [] => Raise StatisticsError
  | _ => fdiv (fsum l) (of_int (len l))
  end.

(** [int(k)] for a real [k]: truncation towards zero. *)
Definition int_of (k : Q) : Z :=
  if Qltb k 0 then Qceiling k else Qfloor k.

(** ** Thresholds *)

Definition WARN_PCT : pyfloat := Fin 5.
Definition ALERT_PCT : pyfloat := Fin 10.
Definition BLOCK_PCT : pyfloat := Fin 20.

(** ** percentile *)

(** [p] is a real number (an int or a float that is not NaN). *)
Definition percentile (values : list pyfloat) (p : Q) : result pyfloat :=
  match values with
  | [] => Ok NaN
  | _ =>
      let values := sorted values in
      let k := (inject_Z (len values - 1) * (p / 100))%Q in
      let f := Qfloor k in
      let c := Qceiling k in
      if f =? c then py_index values (int_of k)
      else
        v0 <- py_index values f ;;
        let d0 := fmul v0 (Fin (inject_Z c - k)) in
        v1 <- py_index values c ;;
        let d1 := fmul v1 (Fin (k - inject_Z f)) in
        Ok (fadd d0 d1)
  end.

(** ** read_jmeter_csv *)

(** [str.lower] on the ASCII letters.  No other character has t, r, u or e
    as its lower case, so the comparison with ['true'] is not affected. *)
Definition lower_ascii (c : ascii) : ascii :=
  let n := nat_of_ascii c in
  if ((65 <=? n) && (n <=? 90))%nat then ascii_of_nat (n + 32) else c.

Fixpoint lower (s : string) : string :=
  match s with
  | EmptyString => EmptyString
  | String c t => String (lower_ascii c) (lower t)
  end.

(** One sample: [{'elapsed': ..., 'success': ..., 'label': ...}]. *)
Record sample : Set := mk_sample {
  elapsed : pyfloat;
  success : bool;
  label : string
}.

(** What [csv.DictReader] hands over: the header ([None] for a file without
    one) and one dict per data line.  A field that is absent from a short
    line has the value [None] in Python; [row.get] does not tell it from an
    absent key, and the model leaves such a key out of the map. *)
Record csv_file : Type := mk_csv {
  fieldnames : option (list string);
  csv_rows : list (gmap string string)
}.

(** The value of [a or b or 0]: a string, or the int. *)
Inductive str_or_int : Set :=
| VStr (s : string)
| VInt (z : Z).

(** Truth value of [row.get(key)]: [None] and the empty string are false. *)
Definition truthy (o : option string) : option string :=
  match o with
  | Some s => if decide (s = EmptyString) then None else Some s
  | None => None
  end.

(** [row.get(k1) or row.get(k2)] *)
Definition get_or (row : gmap string string) (k1 k2 : string) : option string :=
  match truthy (row !! k1) with
  | Some s => Some s
  | None => truthy (row !! k2)
  end.

Section Reader.

(** The built-in [float] on a string; [Raise ValueError] when the string
    is not a float literal. *)
Variable float_of_str : string -> result pyfloat.

Definition py_float (v : str_or_int) : result pyfloat :=
  match v with
  | VStr s => float_of_str s
  | VInt z => Ok (of_int z)
  end.

(** The body of the [try] block. *)
Definition parse_row (row : gmap string string) : result sample :=
  elapsed <- py_float (match get_or row "elapsed" "Elapsed" with
                       | Some s => VStr s
                       | None => VInt 0
                       end) ;;
  let success_str := default "false"%string (get_or row "success" "Success") in
  let success := bool_decide (lower success_str = "true"%string) in
  let label := default "unknown"%string (get_or row "label" "Label") in
  Ok {| elapsed := elapsed; success := success; label := label |}.

(** One turn of the [for row in reader] loop: [except Exception: continue]. *)
Definition read_step (samples : list sample) (row : gmap string string) : list sample :=
  match parse_row row with
  | Ok s => samples ++ [s]
  | Raise _ => samples
  end.

Definition read_jmeter_csv (file : csv_file) : list sample :=
  match fieldnames file with
  | None => []
  | Some _ => fold_left read_step (csv_rows file) []
  end.

End Reader.

(** A concrete reading of [float] on strings, used in the examples only: an
    unsigned decimal literal (digits, optionally a point and more digits).
    It agrees with Python on every string it accepts.  Among the strings it
    refuses, Python accepts those with a sign, an exponent, surrounding
    blanks, underscores or a leading point, and the spellings of inf and
    nan; the examples use none of them. *)
Definition digit_of (c : ascii) : option Z :=
  let n := nat_of_ascii c in
  if ((48 <=? n) && (n <=? 57))%nat then Some (Z.of_nat n - 48) else None.

Fixpoint digits_value (acc : Z) (s : string) : option (Z * string) :=
  match s with
  | EmptyString => Some (acc, EmptyString)
  | String c t =>
      match digit_of c with
      | Some d => digits_value (10 * acc + d) t
      | None => Some (acc, s)
      end
  end.

Definition starts_with_digit (s : string) : bool :=
  match s with
  | String c _ => bool_decide (is_Some (digit_of c))
  | EmptyString => false
  end.

Definition float_of_decimal (s : string) : result pyfloat :=
  if starts_with_digit s then
    match digits_value 0 s with
    | Some (ip, EmptyString) => Ok (of_int ip)
    | Some (ip, String "."%char frac) =>
        match digits_value 0 frac with
        | Some (fp, EmptyString) =>
            Ok (Fin (inject_Z ip +
                     inject_Z fp / inject_Z (10 ^ Z.of_nat (String.length frac))))
        | _ => Raise ValueError
        end
    | _ => Raise ValueError
    end
  else Raise ValueError.

(** ** aggregate_samples *)

Record aggregate : Set := mk_aggregate {
  count : Z;
  avg_ms : pyfloat;
  p95_ms : pyfloat;
  throughput : pyfloat;
  errors : Z;
  agg_success : Z;
  err_rate : pyfloat
}.

(** [sum(1 for s in samples if not s['success'])] *)
Definition count_errors (samples : list sample) : Z :=
  fold_left (fun acc s => if negb (success s) then acc + 1 else acc) samples 0.

Definition aggregate_samples (samples : list sample) : result aggregate :=
  match samples with
  | [] => Ok {| count := 0; avg_ms := NaN; p95_ms := NaN; throughput := Fin 0;
                errors := 0; agg_success := 0; err_rate := Fin 0 |}
  | _ =>
      let el := map elapsed samples in
      let count := len el in
      avg_ms <- mean el ;;
      p95_ms <- percentile el 95 ;;
      let errors := count_errors samples in
      let success := count - errors in
      total_elapsed_sec <- fdiv (fsum el) (Fin 1000) ;;
      throughput <- (if fgt total_elapsed_sec (of_int 0)
                     then fdiv (of_int count) total_elapsed_sec
                     else Ok (Fin 0)) ;;
      err_rate <- (if count >? 0
                   then q <- fdiv (of_int errors) (of_int count) ;; Ok (fmul q (Fin 100))
                   else Ok (Fin 0)) ;;
      Ok {| count := count; avg_ms := avg_ms; p95_ms := p95_ms;
            throughput := throughput; errors := errors;
            agg_success := success; err_rate := err_rate |}
  end.

(** ** History and moving_average *)

(** One row of the history file, as [read_history] returns it. *)
Record history_row : Set := mk_history_row {
  h_timestamp : string;
  h_run : string;
  h_commit : string;
  h_branch : string;
  h_scenario : string;
  h_avg_ms : pyfloat;
  h_p95_ms : pyfloat;
  h_throughput : pyfloat;
  h_err_rate : pyfloat
}.

(** [values[-window:]] is the whole list when [window] is 0 and drops the
    first [-window] values when it is negative; [main] calls it with 10. *)
Definition moving_average (values : list pyfloat) (window : Z) : result pyfloat :=
  match values with
  | [] => Ok NaN
  | _ =>
      let take := if len values >? window
                  then py_slice_from values (- window)
                  else values in
      mean take
  end.

(** The list comprehension [hist_vals] of [main]. *)
Definition hist_vals (history : list history_row) (name : string) : list history_row :=
  List.filter (fun h => bool_decide (h_scenario h = name)
                   && negb (isnan (h_p95_ms h))
                   && fgt (h_p95_ms h) (of_int 0)) history.

(** [avg_p95] of [main]. *)
Definition baseline_p95 (history : list history_row) (name : string) : result pyfloat :=
  moving_average (map h_p95_ms (hist_vals history name)) 10.

(** ** Classification (the body of the per-scenario loop of [main]) *)

Inductive level : Set := green | yellow | red.

#[global] Instance level_eq_dec : EqDecision level.
Proof. solve_decision. Defined.

Inductive emoji : Set := check_mark | stop_sign | red_circle | yellow_circle.

Record classification : Set := mk_classification {
  c_delta_pct : pyfloat;
  c_level : level;
  c_emoji : emoji;
  c_note : string
}.

(** The decision on one scenario: the baseline [avg_p95] against the current
    [cur_p95] (the assignments to [delta_pct], [level], [emoji], [note]). *)
Definition classify (avg_p95 cur_p95 : pyfloat) : result classification :=
  if negb (isnan avg_p95) && fgt avg_p95 (of_int 0) && negb (isnan cur_p95) then
    q <- fdiv (fsub cur_p95 avg_p95) avg_p95 ;;
    let delta_pct := fmul q (Fin 100) in
    if fgt delta_pct BLOCK_PCT then
      Ok (mk_classification delta_pct red stop_sign "BLOCK (>20%)")
    else if fgt delta_pct ALERT_PCT then
      Ok (mk_classification delta_pct red red_circle "RED (>10%)")
    else if fgt delta_pct WARN_PCT then
      Ok (mk_classification delta_pct yellow yellow_circle "YELLOW (>5%)")
    else
      Ok (mk_classification delta_pct green check_mark "OK")
  else
    Ok (mk_classification NaN green check_mark "no baseline").

(** The update of [worst_level]. *)
Definition worse (lvl worst_level : level) : level :=
  if bool_decide (lvl = red) || bool_decide (worst_level = red) then red
  else if bool_decide (lvl = yellow) || bool_decide (worst_level = yellow) then yellow
  else green.

(** The entry [summary['scenarios'][name]]. *)
Record scenario_summary : Set := mk_scenario_summary {
  s_avg_ms : pyfloat;
  s_p95_ms : pyfloat;
  s_throughput : pyfloat;
  s_err_rate : pyfloat;
  s_baseline_p95_ms : pyfloat;
  s_delta_pct : pyfloat;
  s_level : level;
  s_note : string
}.

(** ** Dicts that are iterated over

    A Python dict keeps its keys in insertion order; assigning to a key that
    is present replaces the value in place. *)
Fixpoint dict_set {V : Type} (d : list (string * V)) (k : string) (v : V) : list (string * V) :=
  match d with
  | [] => [(k, v)]
  | (k', v') :: t =>
      if decide (k' = k) then (k, v) :: t else (k', v') :: dict_set t k v
  end.

Definition dict_values {V : Type} (d : list (string * V)) : list V := map snd d.

(** ** main *)

(** [needle in hay] on strings. *)
Fixpoint str_contains (needle hay : string) : bool :=
  String.prefix needle hay ||
  match hay with
  | EmptyString => false
  | String _ t => str_contains needle t
  end.

Record run_output : Set := mk_run_output {
  out_scenarios : list (string * scenario_summary);
  out_overall : option level;
  exit_code : Z
}.

(** [any(v['level'] == 'red' and 'BLOCK' in v['note'] for v in ...)]: the
    test on one entry, and the whole decision. *)
Definition blocks (v : scenario_summary) : bool :=
  bool_decide (s_level v = red) && str_contains "BLOCK" (s_note v).

Definition should_block (summary : list (string * scenario_summary)) : bool :=
  existsb blocks (dict_values summary).

(** One turn of [for name, agg in scenarios.items()]. *)
Definition evaluate_scenario (history : list history_row) (name : string) (agg : aggregate)
  : result (level * scenario_summary) :=
  avg_p95 <- baseline_p95 history name ;;
  let cur_p95 := p95_ms agg in
  c <- classify avg_p95 cur_p95 ;;
  Ok (c_level c,
      {| s_avg_ms := avg_ms agg; s_p95_ms := p95_ms agg;
         s_throughput := throughput agg; s_err_rate := err_rate agg;
         s_baseline_p95_ms := avg_p95; s_delta_pct := c_delta_pct c;
         s_level := c_level c; s_note := c_note c |}).

Fixpoint evaluate_all (history : list history_row) (scenarios : list (string * aggregate))
         (worst_level : level) (summary : list (string * scenario_summary))
  : result (level * list (string * scenario_summary)) :=
  match scenarios with
  | [] => Ok (worst_level, summary)
  | (name, agg) :: rest =>
      r <- evaluate_scenario history name agg ;;
      let worst_level := worse (fst r) worst_level in
      evaluate_all history rest worst_level (dict_set summary name (snd r))
  end.

Section Main.

Variable float_of_str : string -> result pyfloat.

(** First loop: [scenarios[name] = aggregate_samples(read_jmeter_csv(path))]. *)
Fixpoint collect_scenarios (result_files : list (string * csv_file))
         (scenarios : list (string * aggregate)) : result (list (string * aggregate)) :=
  match result_files with
  | [] => Ok scenarios
  | (name, file) :: rest =>
      let samples := read_jmeter_csv float_of_str file in
      agg <- aggregate_samples samples ;;
      collect_scenarios rest (dict_set scenarios name agg)
  end.

(** [result_files]: the result files in glob order, each with its stem and
    its parsed content; [history]: what [read_history] returns. *)
Definition main (result_files : list (string * csv_file)) (history : list history_row)
  : result run_output :=
  match result_files with
  | [] => Ok {| out_scenarios := []; out_overall := None; exit_code := 0 |}
  | _ =>
      scenarios <- collect_scenarios result_files [] ;;
      r <- evaluate_all history scenarios green [] ;;
      let worst_level := fst r in
      let summary := snd r in
      Ok {| out_scenarios := summary; out_overall := Some worst_level;
            exit_code := if should_block summary then 2 else 0 |}
  end.

End Main.

(** ** The throughput lines of [aggregate_samples] in binary64

    [total_elapsed_sec = sum(el) / 1000.0] and the test
    [total_elapsed_sec > 0] with the floats of the machine, where a quotient
    can underflow to 0.0.  The sum is the float sum from 0, left to right
    (on a list of one element every summation returns that element);
    [float_of_len] is [float(len(el))], exact below 2^53. *)
Fixpoint float_of_len {A : Type} (l : list A) : PrimFloat.float :=
  match l with
  | [] => 0%float
  | _ :: t => PrimFloat.add (float_of_len t) 1%float
  end.

Definition throughput_binary64 (el : list PrimFloat.float) : PrimFloat.float :=
  let count := float_of_len el in
  let total_elapsed_sec :=
    PrimFloat.div (fold_left PrimFloat.add el 0%float) 1000%float in
  if PrimFloat.ltb 0%float total_elapsed_sec
  then PrimFloat.div count total_elapsed_sec
  else 0%float.

(** ** Definitions used to state the properties *)

(** Two lists that hold the same numbers position by position. *)
Definition same_numbers (l1 l2 : list Q) : Prop := Forall2 Qeq l1 l2.

(** The computation of [percentile] once the values are sorted. *)
Definition rank_of (n : Z) (p : Q) : Q := (inject_Z (n - 1) * (p / 100))%Q.

Definition interpolate (s : list pyfloat) (p : Q) : result pyfloat :=
  let k := rank_of (len s) p in
  let f := Qfloor k in
  let c := Qceiling k in
  if f =? c then py_index s (int_of k)
  else
    v0 <- py_index s f ;;
    v1 <- py_index s c ;;
    Ok (fadd (fmul v0 (Fin (inject_Z c - k))) (fmul v1 (Fin (k - inject_Z f)))).

(** Following the spec (4.1): the linearly interpolated order statistic of
    values that are sorted ascending. *)
Definition interpolated_order_statistic (s : list Q) (p : Q) : Q :=
  let n := Z.of_nat (List.length s) in
  let k := (inject_Z (n - 1) * p / 100)%Q in
  let f := Qfloor k in
  let c := Qceiling k in
  if f =? c then nth (Z.to_nat f) s 0%Q
  else (nth (Z.to_nat f) s 0 * (inject_Z c - k) + nth (Z.to_nat c) s 0 * (k - inject_Z f))%Q.

(** The classification chain written on the rational delta. *)
Definition band (d : Q) : classification :=
  if Qltb 20 d then mk_classification (Fin d) red stop_sign "BLOCK (>20%)"
  else if Qltb 10 d then mk_classification (Fin d) red red_circle "RED (>10%)"
  else if Qltb 5 d then mk_classification (Fin d) yellow yellow_circle "YELLOW (>5%)"
  else mk_classification (Fin d) green check_mark "OK".

(** What a classification can be: the level goes with the note. *)
Definition well_classified (lv : level) (note : string) : Prop :=
  (lv = red /\ note = "BLOCK (>20%)"%string)
  \/ (lv = red /\ note = "RED (>10%)"%string)
  \/ (lv = yellow /\ note = "YELLOW (>5%)"%string)
  \/ (lv = green /\ note = "OK"%string)
  \/ (lv = green /\ note = "no baseline"%string).

Definition entry_ok (v : scenario_summary) : Prop :=
  well_classified (s_level v) (s_note v).

(** The fields of an aggregate, written on the samples. *)
Definition throughput_of (samples : list sample) : pyfloat :=
  match fsum (map elapsed samples) with
  | Fin s => if Qltb 0 s then Fin (inject_Z (len samples) / (s / 1000)) else Fin 0
  | NaN => Fin 0
  end.

Definition err_rate_of (samples : list sample) : Q :=
  if len samples >? 0
  then (inject_Z (count_errors samples) / inject_Z (len samples) * 100)%Q
  else 0%Q.

(** Following the spec (3 and 4.3): the p95 of a history record that counts
    for the baseline of [name], the last [n] entries of a list in stored
    order, the arithmetic mean, and the baseline itself. *)
Definition valid_p95 (name : string) (h : history_row) : option Q :=
  if decide (h_scenario h = name) then
    match h_p95_ms h with
    | Fin q => if Qltb 0 q then Some q else None
    | NaN => None
    end
  else None.

Fixpoint matching_valid_p95 (history : list history_row) (name : string) : list Q :=
  match history with
  | [] => []
  | h :: t =>
      match valid_p95 name h with
      | Some q => q :: matching_valid_p95 t name
      | None => matching_valid_p95 t name
      end
  end.

Definition last_n {A : Type} (n : nat) (l : list A) : list A :=
  skipn (List.length l - n) l.

Definition arithmetic_mean (l : list Q) : Q :=
  (fold_right Qplus 0 l / inject_Z (Z.of_nat (List.length l)))%Q.

Definition spec_baseline (history : list history_row) (name : string) : pyfloat :=
  match last_n 10 (matching_valid_p95 history name) with
  | [] => NaN
  | l => Fin (arithmetic_mean l)
  end.

(** A field that is missing or empty in a row. *)
Definition absent_or_empty (row : gmap string string) (k : string) : Prop :=
  row !! k = None \/ row !! k = Some EmptyString.

(** What one row contributes to the samples. *)
Definition kept (float_of_str : string -> result pyfloat) (row : gmap string string)
  : list sample :=
  match parse_row float_of_str row with
  | Ok s => [s]
  | Raise _ => []
  end.

(** ** Data of the examples *)
Definition history_row_of (name : string) (p95 : pyfloat) : history_row :=
  {| h_timestamp := "2024-01-01T00:00:00Z"; h_run := "1"; h_commit := "abc1234";
     h_branch := "main"; h_scenario := name; h_avg_ms := p95; h_p95_ms := p95;
     h_throughput := Fin 1; h_err_rate := Fin 0 |}.

Definition history_1_to_15 : list history_row :=
  map (fun i => history_row_of "s" (Fin (inject_Z i)))
      [1; 2; 3; 4; 5; 6; 7; 8; 9; 10; 11; 12; 13; 14; 15].

Definition one_sample_file (ms : string) : csv_file :=
  mk_csv (Some ["elapsed"; "label"; "success"]%string)
         [ {[ "elapsed"%string := ms; "label"%string := "s"%string;
              "success"%string := "true"%string ]} ].

Definition row_without_success_and_label : gmap string string :=
  {[ "elapsed"%string := "12"%string ]}.

(** The number held by a float that is not NaN. *)
Definition real_of (x : pyfloat) : Q :=
  match x with
  | Fin q => q
  | NaN => 0%Q
  end.

(** All the elapsed values of the samples are numbers. *)
Definition real_elapsed (samples : list sample) : Prop :=
  Forall (fun s => isnan (elapsed s) = false) samples.

(** Two aggregates with the same counts and the same numbers, the throughput
    left aside. *)
Definition same_aggregate_but_throughput (a b : aggregate) : Prop :=
  count a = count b /\ feq (avg_ms a) (avg_ms b) /\ feq (p95_ms a) (p95_ms b)
  /\ errors a = errors b /\ agg_success a = agg_success b
  /\ feq (err_rate a) (err_rate b).

(** The order of the levels: green < yellow < red. *)
Definition level_rank (l : level) : Z :=
  match l with
  | green => 0
  | yellow => 1
  | red => 2
  end.

(** The badge of [main]: [badge_color] and [badge_text] are looked up in
    dicts that have the three levels as keys. *)
Definition badge_color (worst_level : level) : string :=
  match worst_level with
  | green => "#4c1"
  | yellow => "#dfb317"
  | red => "#e05d44"
  end.

Definition badge_text (worst_level : level) : string :=
  match worst_level with
  | green => "OK"
  | yellow => "WARN"
  | red => "ALERT"
  end.

(** The entry [v] of the summary is the one the loop of [main] builds for
    the scenario [name] with the aggregate [agg]. *)
Definition entry_of (history : list history_row) (name : string) (agg : aggregate)
           (v : scenario_summary) : Prop :=
  s_avg_ms v = avg_ms agg /\ s_p95_ms v = p95_ms agg
  /\ s_throughput v = throughput agg /\ s_err_rate v = err_rate agg
  /\ baseline_p95 history name = Ok (s_baseline_p95_ms v)
  /\ exists cl, classify (s_baseline_p95_ms v) (s_p95_ms v) = Ok cl
                /\ s_delta_pct v = c_delta_pct cl
                /\ s_level v = c_level cl /\ s_note v = c_note cl.

(** The worst of a list of levels, starting from green. *)
Definition worst_of (levels : list level) : level :=
  fold_left (fun worst_level lvl => worse lvl worst_level) levels green.

(** ** read_history

    [csv.DictReader] is not modelled: a row is the dict it yields for a line
    that has as many fields as the header, so that every key of the row
    holds a text.  (A shorter line gives the value [None] to its missing
    fields; [float(None)] raises, so the code drops such a line when a
    numeric field is among them.  This row type does not represent those
    lines.)  The history file is [None] when it does not exist. *)
Section History.

Variable float_of_str : string -> result pyfloat.

(** [float(row[key])]: a missing key and a text that is not a float both
    raise; the [try] block catches every exception alike, so a failure is
    [None]. *)
Definition float_field (row : gmap string string) (key : string) : option pyfloat :=
  match row !! key with
  | Some text =>
      match float_of_str text with
      | Ok x => Some x
      | Raise _ => None
      end
  | None => None
  end.

(** The body of the [try] block of [read_history]. *)
Definition parse_history_row (row : gmap string string) : option history_row :=
  match row !! "timestamp" with
  | None => None
  | Some timestamp =>
      let run := default EmptyString (row !! "run") in
      let commit := default EmptyString (row !! "commit") in
      let branch := default EmptyString (row !! "branch") in
      match row !! "scenario" with
      | None => None
      | Some scenario =>
          match float_field row "avg_ms" with
          | None => None
          | Some avg_ms =>
              match float_field row "p95_ms" with
              | None => None
              | Some p95_ms =>
                  match float_field row "throughput" with
                  | None => None
                  | Some throughput =>
                      match (match row !! "err_rate" with
                             | Some _ => float_field row "err_rate"
                             | None => Some (Fin 0)
                             end) with
                      | None => None
                      | Some err_rate =>
                          Some {| h_timestamp := timestamp; h_run := run;
                                  h_commit := commit; h_branch := branch;
                                  h_scenario := scenario; h_avg_ms := avg_ms;
                                  h_p95_ms := p95_ms; h_throughput := throughput;
                                  h_err_rate := err_rate |}
                      end
                  end
              end
          end
      end
  end.

(** One turn of the loop: [hist.append(...)], or [continue] on an exception. *)
Definition history_step (hist : list history_row) (row : gmap string string)
  : list history_row :=
  match parse_history_row row with
  | Some h => hist ++ [h]
  | None => hist
  end.

Definition read_history (history_file : option (list (gmap string string)))
  : list history_row :=
  match history_file with
  | None => []
  | Some rows => fold_left history_step rows []
  end.

End History.

(** What one row of the history file contributes to the history. *)
Definition kept_history (float_of_str : string -> result pyfloat)
           (row : gmap string string) : list history_row :=
  match parse_history_row float_of_str row with
  | Some h => [h]
  | None => []
  end.

Definition history_row_text (scenario p95 : string) : gmap string string :=
  {[ "timestamp"%string := "2024-01-01T00:00:00Z"%string;
     "scenario"%string := scenario;
     "avg_ms"%string := p95; "p95_ms"%string := p95;
     "throughput"%string := "1"%string ]}.

(** * Basic facts *)

Lemma Qltb_lt (a b : Q) : Qltb a b = true <-> (a < b)%Q.
Proof.
  unfold Qltb. rewrite negb_true_iff, <- not_true_iff_false, Qle_bool_iff.
  split; [apply Qnot_le_lt | apply Qlt_not_le].
Qed.

Lemma Qltb_ge (a b : Q) : Qltb a b = false <-> (b <= a)%Q.
Proof.
  unfold Qltb. rewrite negb_false_iff. apply Qle_bool_iff.
Qed.

Lemma Qeq_bool_false (a b : Q) : ~ (a == b)%Q -> Qeq_bool a b = false.
Proof.
  intros H. destruct (Qeq_bool a b) eqn:E; [|reflexivity].
  apply Qeq_bool_iff in E. contradiction.
Qed.

Lemma py_index_in_range {A : Type} (l : list A) (i : Z) :
  0 <= i < len l ->
  exists a, py_index l i = Ok a /\ nth_error l (Z.to_nat i) = Some a.
Proof.
  intros Hi. unfold py_index.
  assert (E0 : (i <? 0) = false) by (apply Z.ltb_ge; lia).
  rewrite E0; cbv zeta; rewrite E0.
  destruct (nth_error l (Z.to_nat i)) as [a|] eqn:E.
  - exists a. split; reflexivity.
  - apply nth_error_None in E. unfold len in Hi. lia.
Qed.

(** * The sort *)

Section Sorting.

Context {A : Type} (lt : A -> A -> bool).

Lemma insert_sorted_length x l :
  List.length (insert_sorted lt x l) = S (List.length l).
Proof.
  induction l as [|y t IH]; simpl; [reflexivity|].
  destruct (lt y x); simpl; [rewrite IH|]; reflexivity.
Qed.

Lemma sorted_by_length l : List.length (sorted_by lt l) = List.length l.
Proof.
  induction l as [|x t IH]; simpl; [reflexivity|].
  rewrite insert_sorted_length, IH. reflexivity.
Qed.

Lemma insert_sorted_perm x l : Permutation (x :: l) (insert_sorted lt x l).
Proof.
  induction l as [|y t IH]; simpl; [apply Permutation_refl|].
  destruct (lt y x); [|apply Permutation_refl].
  eapply perm_trans; [apply perm_swap|]. apply perm_skip. exact IH.
Qed.

Lemma sorted_by_perm l : Permutation l (sorted_by lt l).
Proof.
  induction l as [|x t IH]; simpl; [apply perm_nil|].
  eapply perm_trans; [apply perm_skip; exact IH|]. apply insert_sorted_perm.
Qed.

End Sorting.

Lemma sorted_by_map {A B : Type} (f : A -> B) ltA ltB (l : list A) :
  (forall a b, ltB (f a) (f b) = ltA a b) ->
  sorted_by ltB (map f l) = map f (sorted_by ltA l).
Proof.
  intros Hlt. induction l as [|x t IH]; simpl; [reflexivity|].
  rewrite IH. clear IH. induction (sorted_by ltA t) as [|y s IHs]; simpl; [reflexivity|].
  rewrite Hlt. destruct (ltA y x); simpl; [rewrite IHs|]; reflexivity.
Qed.

Lemma sorted_Fin (qs : list Q) : sorted (map Fin qs) = map Fin (sorted_by Qltb qs).
Proof. apply sorted_by_map. reflexivity. Qed.

(** The sort on rationals yields an ascending list. *)
Lemma insert_sorted_Q_sorted (x : Q) (l : list Q) :
  StronglySorted Qle l -> StronglySorted Qle (insert_sorted Qltb x l).
Proof.
  induction 1 as [|y t Ht IH Hall]; simpl.
  - constructor; constructor.
  - destruct (Qltb y x) eqn:E.
    + apply Qltb_lt in E. constructor; [exact IH|].
      eapply Permutation_Forall; [apply insert_sorted_perm|].
      constructor; [apply Qlt_le_weak; exact E | exact Hall].
    + apply Qltb_ge in E. constructor; [constructor; assumption|].
      constructor; [exact E|].
      eapply List.Forall_impl; [|exact Hall]. intros z Hz. simpl in Hz.
      eapply Qle_trans; eassumption.
Qed.

Lemma sorted_by_Q_sorted (l : list Q) : StronglySorted Qle (sorted_by Qltb l).
Proof.
  induction l as [|x t IH]; simpl; [constructor|].
  apply insert_sorted_Q_sorted. exact IH.
Qed.

(** Sorting an ascending list changes nothing. *)
Lemma sorted_by_Q_id (l : list Q) : StronglySorted Qle l -> sorted_by Qltb l = l.
Proof.
  induction 1 as [|x t Ht IH Hall]; simpl; [reflexivity|].
  rewrite IH. destruct Hall as [|y s Hy Hs]; simpl; [reflexivity|].
  destruct (Qltb y x) eqn:E; [|reflexivity].
  apply Qltb_lt in E. exfalso. eapply Qlt_not_le; eassumption.
Qed.

Lemma same_numbers_refl l : same_numbers l l.
Proof. induction l; constructor; [reflexivity | assumption]. Qed.

Lemma same_numbers_trans l1 l2 l3 :
  same_numbers l1 l2 -> same_numbers l2 l3 -> same_numbers l1 l3.
Proof.
  intros H. revert l3. induction H as [|a b l1 l2 Hab H IH]; intros l3 H3.
  - exact H3.
  - inversion H3; subst. constructor; [etransitivity; eassumption | apply IH; assumption].
Qed.

Lemma Qltb_compat (a a' b b' : Q) : (a == a')%Q -> (b == b')%Q -> Qltb a b = Qltb a' b'.
Proof.
  intros Ha Hb. destruct (Qltb a' b') eqn:E.
  - apply Qltb_lt. apply Qltb_lt in E. rewrite Ha, Hb. exact E.
  - apply Qltb_ge. apply Qltb_ge in E. rewrite Ha, Hb. exact E.
Qed.

Lemma insert_sorted_same x x' l l' :
  (x == x')%Q -> same_numbers l l' ->
  same_numbers (insert_sorted Qltb x l) (insert_sorted Qltb x' l').
Proof.
  intros Hx H. induction H as [|y y' t t' Hy H IH]; simpl.
  - constructor; [exact Hx | constructor].
  - rewrite (Qltb_compat y y' x x' Hy Hx). destruct (Qltb y' x').
    + constructor; assumption.
    + constructor; [exact Hx|]. constructor; assumption.
Qed.

Ltac qcmp :=
  repeat match goal with
         | H : Qltb _ _ = true |- _ => apply Qltb_lt in H
         | H : Qltb _ _ = false |- _ => apply Qltb_ge in H
         end.

Lemma insert_sorted_swap x y l :
  same_numbers (insert_sorted Qltb x (insert_sorted Qltb y l))
               (insert_sorted Qltb y (insert_sorted Qltb x l)).
Proof.
  induction l as [|z t IH]; simpl.
  - destruct (Qltb y x) eqn:Eyx, (Qltb x y) eqn:Exy; simpl;
      try apply same_numbers_refl; qcmp; [exfalso; lra|].
    assert (x == y)%Q by lra.
    repeat constructor; [assumption | symmetry; assumption].
  - destruct (Qltb z y) eqn:Ezy, (Qltb z x) eqn:Ezx; simpl; rewrite ?Ezy, ?Ezx.
    + constructor; [reflexivity | exact IH].
    + destruct (Qltb x y) eqn:Exy; simpl; rewrite ?Ezy.
      * apply same_numbers_refl.
      * qcmp. exfalso. lra.
    + destruct (Qltb y x) eqn:Eyx; simpl; rewrite ?Ezx.
      * apply same_numbers_refl.
      * qcmp. exfalso. lra.
    + destruct (Qltb y x) eqn:Eyx, (Qltb x y) eqn:Exy; simpl; rewrite ?Ezy, ?Ezx;
        try apply same_numbers_refl; qcmp; [exfalso; lra|].
      assert (x == y)%Q by lra.
      constructor; [assumption|]. constructor; [symmetry; assumption|].
      apply same_numbers_refl.
Qed.

Lemma sorted_by_Q_perm (l1 l2 : list Q) :
  Permutation l1 l2 -> same_numbers (sorted_by Qltb l1) (sorted_by Qltb l2).
Proof.
  induction 1 as [| x l1 l2 H IH | x y l | l1 l2 l3 H1 IH1 H2 IH2]; simpl.
  - constructor.
  - apply insert_sorted_same; [reflexivity | exact IH].
  - apply insert_sorted_swap.
  - eapply same_numbers_trans; eassumption.
Qed.

(** * percentile *)

Lemma result_feq_trans r1 r2 r3 : result_feq r1 r2 -> result_feq r2 r3 -> result_feq r1 r3.
Proof.
  destruct r1 as [[|a]|e1], r2 as [[|b]|e2], r3 as [[|c]|e3]; simpl; try tauto.
  - intros H1 H2. rewrite H1. exact H2.
  - congruence.
Qed.

Lemma percentile_interpolate (values : list pyfloat) (p : Q) :
  values <> [] -> percentile values p = interpolate (sorted values) p.
Proof.
  intros Hne. destruct values as [|v t]; [congruence|]. reflexivity.
Qed.

Lemma same_numbers_length l1 l2 : same_numbers l1 l2 -> len l1 = len l2.
Proof. intros H. unfold len. f_equal. eapply Forall2_length; eassumption. Qed.

Lemma same_numbers_nth l1 l2 (i : nat) :
  same_numbers l1 l2 -> (nth i l1 0 == nth i l2 0)%Q.
Proof.
  intros H. revert i. induction H as [|a b l1 l2 Hab H IH]; intros [|i]; simpl;
    try reflexivity; [exact Hab | apply IH].
Qed.

Lemma py_index_Fin (s : list Q) (i : Z) :
  py_index (map Fin s) i =
  (let j := if i <? 0 then i + len s else i in
   if (j <? 0) || (len s <=? j) then Raise IndexError
   else Ok (Fin (nth (Z.to_nat j) s 0%Q))).
Proof.
  unfold py_index. replace (len (map Fin s)) with (len s)
    by (unfold len; rewrite length_map; reflexivity).
  cbv zeta. set (j := if i <? 0 then i + len s else i).
  destruct (Z.ltb_spec j 0) as [Hj|Hj]; [reflexivity|]. simpl.
  destruct (Z.leb_spec (len s) j) as [Hn|Hn].
  - replace (nth_error (map Fin s) (Z.to_nat j)) with (@None pyfloat); [reflexivity|].
    symmetry. apply nth_error_None. rewrite length_map. unfold len in Hn. lia.
  - rewrite nth_error_map.
    rewrite (nth_error_nth' s 0%Q) by (unfold len in Hn; lia). reflexivity.
Qed.

Lemma py_index_same (s1 s2 : list Q) (i : Z) :
  same_numbers s1 s2 ->
  result_feq (py_index (map Fin s1) i) (py_index (map Fin s2) i).
Proof.
  intros H. rewrite !py_index_Fin. rewrite (same_numbers_length _ _ H). cbv zeta.
  destruct (_ || _); simpl; [reflexivity|]. apply same_numbers_nth. exact H.
Qed.

Lemma interpolate_same (s1 s2 : list Q) (p : Q) :
  same_numbers s1 s2 ->
  result_feq (interpolate (map Fin s1) p) (interpolate (map Fin s2) p).
Proof.
  intros H. unfold interpolate.
  replace (len (map Fin s1)) with (len s2)
    by (rewrite <- (same_numbers_length _ _ H); unfold len; rewrite length_map; reflexivity).
  replace (len (map Fin s2)) with (len s2) by (unfold len; rewrite length_map; reflexivity).
  cbv zeta. set (k := rank_of (len s2) p).
  destruct (Qfloor k =? Qceiling k).
  - apply py_index_same. exact H.
  - pose proof (py_index_same s1 s2 (Qfloor k) H) as Hf.
    pose proof (py_index_same s1 s2 (Qceiling k) H) as Hc.
    destruct (py_index (map Fin s1) (Qfloor k)) as [[|a0]|e0],
             (py_index (map Fin s2) (Qfloor k)) as [[|b0]|e0']; simpl in Hf; try tauto;
    destruct (py_index (map Fin s1) (Qceiling k)) as [[|a1]|e1],
             (py_index (map Fin s2) (Qceiling k)) as [[|b1]|e1']; simpl in Hc; try tauto;
    simpl; try exact I; try congruence.
    rewrite Hf, Hc. reflexivity.
Qed.

(** Permuting the input of [percentile] does not change the number returned. *)
Lemma percentile_perm (l1 l2 : list Q) (p : Q) :
  Permutation l1 l2 ->
  result_feq (percentile (map Fin l1) p) (percentile (map Fin l2) p).
Proof.
  intros H. destruct l1 as [|a t1].
  - apply Permutation_nil in H. subst. simpl. exact I.
  - destruct l2 as [|b t2]; [symmetry in H; apply Permutation_nil in H; discriminate|].
    rewrite !percentile_interpolate by discriminate.
    rewrite !sorted_Fin. apply interpolate_same. apply sorted_by_Q_perm. exact H.
Qed.

Lemma rank_of_bounds (n : Z) (p : Q) :
  1 <= n -> (0 <= p)%Q -> (p <= 100)%Q ->
  (0 <= rank_of n p)%Q /\ (rank_of n p <= inject_Z (n - 1))%Q.
Proof.
  intros Hn H0 H100. unfold rank_of.
  assert (Hm : (0 <= inject_Z (n - 1))%Q).
  { change 0%Q with (inject_Z 0). rewrite <- Zle_Qle. lia. }
  assert (Ht0 : (0 <= p / 100)%Q).
  { apply Qle_shift_div_l; [reflexivity | lra]. }
  assert (Ht1 : (p / 100 <= 1)%Q).
  { apply Qle_shift_div_r; [reflexivity | lra]. }
  split.
  - apply Qmult_le_0_compat; assumption.
  - rewrite <- (Qmult_1_r (inject_Z (n - 1))) at 2.
    rewrite (Qmult_comm _ (p / 100)), (Qmult_comm _ 1).
    apply Qmult_le_compat_r; assumption.
Qed.

Lemma len_map {A B : Type} (f : A -> B) (l : list A) : len (map f l) = len l.
Proof. unfold len. rewrite length_map. reflexivity. Qed.

Lemma int_of_nonneg (k : Q) : (0 <= k)%Q -> int_of k = Qfloor k.
Proof.
  intros H. unfold int_of. replace (Qltb k 0) with false; [reflexivity|].
  symmetry. apply Qltb_ge. exact H.
Qed.

Lemma floor_ceiling_bounds (k : Q) (m : Z) :
  (0 <= k)%Q -> (k <= inject_Z m)%Q ->
  0 <= Qfloor k /\ Qfloor k <= Qceiling k /\ Qceiling k <= m.
Proof.
  intros H0 Hm. split; [|split].
  - rewrite <- (Qfloor_Z 0). apply Qfloor_resp_le. exact H0.
  - rewrite Zle_Qle. apply Qle_floor_ceiling.
  - rewrite <- (Qceiling_Z m). apply Qceiling_resp_le. exact Hm.
Qed.

Lemma py_index_Fin_in_range (s : list Q) (i : Z) :
  0 <= i < len s -> py_index (map Fin s) i = Ok (Fin (nth (Z.to_nat i) s 0%Q)).
Proof.
  intros Hi. rewrite py_index_Fin.
  replace (i <? 0) with false by (symmetry; apply Z.ltb_ge; lia).
  cbv zeta iota.
  replace (i <? 0) with false by (symmetry; apply Z.ltb_ge; lia).
  replace (len s <=? i) with false by (symmetry; apply Z.leb_gt; lia).
  reflexivity.
Qed.

(** On an in-range percentile, [interpolate] is the spec's formula. *)
Lemma interpolate_spec (s : list Q) (p : Q) :
  s <> [] -> (0 <= p)%Q -> (p <= 100)%Q ->
  result_feq (interpolate (map Fin s) p) (Ok (Fin (interpolated_order_statistic s p))).
Proof.
  intros Hne H0 H100.
  assert (Hn : 1 <= len s).
  { destruct s; [congruence|]. unfold len. simpl. lia. }
  destruct (rank_of_bounds (len s) p Hn H0 H100) as [Hk0 Hk1].
  destruct (floor_ceiling_bounds _ _ Hk0 Hk1) as (Hf0 & Hfc & Hc1).
  unfold interpolate, interpolated_order_statistic. rewrite len_map.
  fold (len s). cbv zeta.
  assert (Hk : (inject_Z (len s - 1) * p / 100 == rank_of (len s) p)%Q).
  { unfold rank_of. field. }
  rewrite (Qfloor_comp _ _ Hk), (Qceiling_comp _ _ Hk).
  set (k := rank_of (len s) p) in *.
  destruct (Qfloor k =? Qceiling k).
  - rewrite int_of_nonneg by exact Hk0.
    rewrite py_index_Fin_in_range by lia. simpl. reflexivity.
  - rewrite !py_index_Fin_in_range by lia. simpl. rewrite Hk. reflexivity.
Qed.

Lemma percentile_sorted_spec (values s : list Q) (p : Q) :
  values <> [] -> (0 <= p)%Q -> (p <= 100)%Q ->
  Permutation s values -> StronglySorted Qle s ->
  result_feq (percentile (map Fin values) p)
             (Ok (Fin (interpolated_order_statistic s p))).
Proof.
  intros Hne H0 H100 Hperm Hsorted.
  assert (Hs : s <> []).
  { intros ->. apply Permutation_nil in Hperm. congruence. }
  eapply result_feq_trans; [|apply interpolate_spec; assumption].
  rewrite percentile_interpolate by (destruct values; [congruence | discriminate]).
  rewrite sorted_Fin. apply interpolate_same.
  rewrite <- (sorted_by_Q_id s Hsorted).
  apply sorted_by_Q_perm. symmetry. exact Hperm.
Qed.

(** Least and greatest element of an ascending list. *)
Lemma sorted_head_least (x : Q) (t : list Q) :
  StronglySorted Qle (x :: t) -> Forall (Qle x) (x :: t).
Proof.
  intros H. inversion H; subst. constructor; [apply Qle_refl | assumption].
Qed.

Lemma sorted_last_greatest (s : list Q) (d : Q) :
  StronglySorted Qle s -> Forall (fun v => (v <= List.last s d)%Q) s.
Proof.
  induction 1 as [|x t Ht IH Hall]; [constructor|].
  destruct t as [|y t']; [constructor; [apply Qle_refl | constructor]|].
  change (List.last (x :: y :: t') d) with (List.last (y :: t') d).
  constructor; [|exact IH].
  inversion Hall as [|? ? Hxy _]; subst.
  inversion IH as [|? ? Hy _]; subst. eapply Qle_trans; eassumption.
Qed.

Lemma nth_length_pred_last {A : Type} (s : list A) (d : A) :
  nth (List.length s - 1) s d = List.last s d.
Proof.
  induction s as [|x t IH]; [reflexivity|].
  destruct t as [|y t']; [reflexivity|].
  change (List.last (x :: y :: t') d) with (List.last (y :: t') d).
  rewrite <- IH. simpl. rewrite Nat.sub_0_r. reflexivity.
Qed.

Lemma percentile_0_min (values : list Q) :
  values <> [] ->
  exists m, percentile (map Fin values) 0 = Ok (Fin m)
            /\ In m values /\ Forall (fun v => (m <= v)%Q) values.
Proof.
  intros Hne.
  rewrite percentile_interpolate by (destruct values; [congruence | discriminate]).
  rewrite sorted_Fin.
  pose proof (sorted_by_perm Qltb values) as Hperm.
  pose proof (sorted_by_Q_sorted values) as Hsorted.
  destruct (sorted_by Qltb values) as [|m t] eqn:Es.
  { symmetry in Hperm. apply Permutation_nil in Hperm. congruence. }
  exists m. split; [|split].
  - unfold interpolate. rewrite len_map. cbv zeta.
    assert (Hk : (rank_of (len (m :: t)) 0 == 0)%Q) by (unfold rank_of; field).
    rewrite (Qfloor_comp _ _ Hk), (Qceiling_comp _ _ Hk).
    rewrite int_of_nonneg by (rewrite Hk; apply Qle_refl).
    rewrite (Qfloor_comp _ _ Hk). reflexivity.
  - eapply Permutation_in; [symmetry; exact Hperm | left; reflexivity].
  - eapply Permutation_Forall; [symmetry; exact Hperm|].
    apply (sorted_head_least m t Hsorted).
Qed.

Lemma percentile_100_max (values : list Q) :
  values <> [] ->
  exists m, percentile (map Fin values) 100 = Ok (Fin m)
            /\ In m values /\ Forall (fun v => (v <= m)%Q) values.
Proof.
  intros Hne.
  rewrite percentile_interpolate by (destruct values; [congruence | discriminate]).
  rewrite sorted_Fin.
  pose proof (sorted_by_perm Qltb values) as Hperm.
  pose proof (sorted_by_Q_sorted values) as Hsorted.
  set (s := sorted_by Qltb values) in *.
  assert (Hs : s <> []).
  { intros E. rewrite E in Hperm. symmetry in Hperm.
    apply Permutation_nil in Hperm. congruence. }
  assert (Hn : 1 <= len s).
  { destruct s; [congruence|]. unfold len. simpl. lia. }
  exists (List.last s 0%Q). split; [|split].
  - unfold interpolate. rewrite len_map. cbv zeta.
    assert (Hk : (rank_of (len s) 100 == inject_Z (len s - 1))%Q) by (unfold rank_of; field).
    rewrite (Qfloor_comp _ _ Hk), (Qceiling_comp _ _ Hk), Qfloor_Z, Qceiling_Z.
    rewrite Z.eqb_refl.
    rewrite int_of_nonneg
      by (rewrite Hk; change 0%Q with (inject_Z 0); rewrite <- Zle_Qle; lia).
    rewrite (Qfloor_comp _ _ Hk), Qfloor_Z. rewrite py_index_Fin_in_range by lia.
    do 2 f_equal. unfold len.
    replace (Z.to_nat (Z.of_nat (List.length s) - 1)) with (List.length s - 1)%nat by lia.
    apply nth_length_pred_last.
  - eapply Permutation_in; [symmetry; exact Hperm|].
    clear -Hs. induction s as [|x t IH]; [congruence|].
    destruct t as [|y t']; [left; reflexivity|].
    right. apply IH. discriminate.
  - eapply Permutation_Forall; [symmetry; exact Hperm|].
    apply sorted_last_greatest. exact Hsorted.
Qed.

(** * The classifier *)

Lemma fgt_Fin (a b : Q) : fgt (Fin a) (Fin b) = true <-> (b < a)%Q.
Proof. unfold fgt, flt. apply Qltb_lt. Qed.

Lemma fgt_Fin_false (a b : Q) : fgt (Fin a) (Fin b) = false <-> (a <= b)%Q.
Proof. unfold fgt, flt. apply Qltb_ge. Qed.

Lemma fdiv_Fin (a b : Q) : ~ (b == 0)%Q -> fdiv (Fin a) (Fin b) = Ok (Fin (a / b)).
Proof. intros H. unfold fdiv. rewrite (Qeq_bool_false _ _ H). reflexivity. Qed.

(** The guard of the classifier holds exactly for a positive rational
    baseline and a rational current value. *)
Lemma guard_true (avg cur : pyfloat) :
  negb (isnan avg) && fgt avg (of_int 0) && negb (isnan cur) = true <->
  exists b c, avg = Fin b /\ cur = Fin c /\ (0 < b)%Q.
Proof.
  split.
  - intros H. apply andb_true_iff in H as [H Hc]. apply andb_true_iff in H as [_ Hb].
    destruct avg as [|b]; [discriminate|]. destruct cur as [|c]; [discriminate|].
    exists b, c. repeat split. apply fgt_Fin in Hb. exact Hb.
  - intros (b & c & -> & -> & Hb). simpl.
    rewrite andb_true_r. apply (fgt_Fin b 0). exact Hb.
Qed.

Lemma guard_false (avg cur : pyfloat) :
  negb (isnan avg) && fgt avg (of_int 0) && negb (isnan cur) = false <->
  (isnan avg = true \/ fle avg (of_int 0) = true \/ isnan cur = true).
Proof.
  destruct avg as [|b], cur as [|c].
  - simpl. split; [intros _|]; tauto.
  - simpl. split; [intros _|]; tauto.
  - cbn [isnan negb]. rewrite andb_false_r. split; [intros _|]; tauto.
  - cbn [isnan negb andb fle of_int]. rewrite andb_true_r.
    change (of_int 0) with (Fin 0).
    rewrite fgt_Fin_false, Qle_bool_iff.
    split; [tauto|]. intros [H|[H|H]]; [discriminate | exact H | discriminate].
Qed.

Lemma classify_valid (b c : Q) :
  (0 < b)%Q -> classify (Fin b) (Fin c) = Ok (band ((c - b) / b * 100)).
Proof.
  intros Hb. unfold classify.
  replace (negb (isnan (Fin b)) && fgt (Fin b) (of_int 0) && negb (isnan (Fin c)))
    with true by (symmetry; apply guard_true; eauto).
  simpl fsub. rewrite fdiv_Fin by lra.
  unfold band, BLOCK_PCT, ALERT_PCT, WARN_PCT. cbn [bind fmul fgt flt].
  destruct (Qltb 20 _); [reflexivity|].
  destruct (Qltb 10 _); [reflexivity|].
  destruct (Qltb 5 _); reflexivity.
Qed.

Lemma classify_no_baseline (avg cur : pyfloat) :
  isnan avg = true \/ fle avg (of_int 0) = true \/ isnan cur = true ->
  classify avg cur = Ok (mk_classification NaN green check_mark "no baseline").
Proof.
  intros H. apply guard_false in H. unfold classify. rewrite H. reflexivity.
Qed.

Lemma band_well_classified (d : Q) : well_classified (c_level (band d)) (c_note (band d)).
Proof.
  unfold band, well_classified.
  destruct (Qltb 20 d); [simpl; tauto|].
  destruct (Qltb 10 d); [simpl; tauto|].
  destruct (Qltb 5 d); simpl; tauto.
Qed.

Lemma classify_total (avg cur : pyfloat) :
  exists cl, classify avg cur = Ok cl /\ well_classified (c_level cl) (c_note cl).
Proof.
  destruct (negb (isnan avg) && fgt avg (of_int 0) && negb (isnan cur)) eqn:G.
  - apply guard_true in G as (b & c & -> & -> & Hb).
    rewrite classify_valid by exact Hb. eexists. split; [reflexivity|].
    apply band_well_classified.
  - apply guard_false in G. rewrite classify_no_baseline by exact G.
    eexists. split; [reflexivity|]. unfold well_classified. simpl. tauto.
Qed.

Lemma band_cases (d : Q) :
  ((20 < d)%Q -> band d = mk_classification (Fin d) red stop_sign "BLOCK (>20%)")
  /\ ((10 < d)%Q -> (d <= 20)%Q ->
      band d = mk_classification (Fin d) red red_circle "RED (>10%)")
  /\ ((5 < d)%Q -> (d <= 10)%Q ->
      band d = mk_classification (Fin d) yellow yellow_circle "YELLOW (>5%)")
  /\ ((d <= 5)%Q -> band d = mk_classification (Fin d) green check_mark "OK").
Proof.
  unfold band.
  destruct (Qltb 20 d) eqn:E20; destruct (Qltb 10 d) eqn:E10;
    destruct (Qltb 5 d) eqn:E5; qcmp;
    repeat split; intros; try reflexivity; exfalso; lra.
Qed.

(** The gating test on an entry of the summary. *)
Lemma blocks_iff (v : scenario_summary) :
  well_classified (s_level v) (s_note v) ->
  (blocks v = true <-> s_note v = "BLOCK (>20%)"%string).
Proof.
  unfold blocks. intros [[Hl Hn]|[[Hl Hn]|[[Hl Hn]|[[Hl Hn]|[Hl Hn]]]]];
    rewrite Hl, Hn; simpl; split; intros H; try discriminate; reflexivity.
Qed.

(** * Sums and means *)

Lemma inject_Z_pos_neq (z : Z) : 0 < z -> ~ (inject_Z z == 0)%Q.
Proof.
  intros Hz H. unfold Qeq in H. simpl in H. lia.
Qed.

Lemma fold_left_fadd_Fin (l : list Q) (a : Q) :
  fold_left fadd (map Fin l) (Fin a) = Fin (fold_left Qplus l a).
Proof.
  revert a. induction l as [|x t IH]; intros a; simpl; [reflexivity|]. apply IH.
Qed.

Lemma fsum_Fin (l : list Q) : fsum (map Fin l) = Fin (fold_left Qplus l 0%Q).
Proof. unfold fsum, of_int. apply fold_left_fadd_Fin. Qed.

Lemma fold_left_Qplus (l : list Q) (a : Q) :
  (fold_left Qplus l a == a + fold_right Qplus 0 l)%Q.
Proof.
  revert a. induction l as [|x t IH]; intros a; simpl; [ring|].
  rewrite IH. ring.
Qed.

(** [mean] never raises on a non-empty list. *)
Lemma mean_total (l : list pyfloat) :
  l <> [] -> exists m, mean l = Ok m.
Proof.
  intros Hne. destruct l as [|x t]; [congruence|].
  unfold mean. set (l := x :: t).
  assert (Hlen : 0 < len l) by (unfold len, l; simpl; lia).
  pose proof (inject_Z_pos_neq _ Hlen) as Hnz.
  unfold fdiv, of_int. rewrite (Qeq_bool_false _ _ Hnz).
  destruct (fsum l); eauto.
Qed.

Lemma mean_Fin (l : list Q) :
  l <> [] ->
  mean (map Fin l) = Ok (Fin (fold_left Qplus l 0%Q / inject_Z (len l))).
Proof.
  intros Hne. destruct l as [|x t]; [congruence|].
  unfold mean. set (l := x :: t).
  change (map Fin (x :: t)) with (map Fin l).
  assert (Hlen : 0 < len l) by (unfold len, l; simpl; lia).
  destruct (map Fin l) eqn:E; [discriminate|]. rewrite <- E.
  rewrite fsum_Fin, len_map. unfold of_int.
  apply fdiv_Fin. apply inject_Z_pos_neq. exact Hlen.
Qed.

(** * percentile returns on every non-empty list when 0 <= p <= 100 *)

Lemma percentile_total (values : list pyfloat) (p : Q) :
  (0 <= p)%Q -> (p <= 100)%Q -> exists r, percentile values p = Ok r.
Proof.
  intros H0 H100. destruct values as [|v t]; [eexists; reflexivity|].
  rewrite percentile_interpolate by discriminate.
  set (s := sorted (v :: t)).
  assert (Hn : 1 <= len s).
  { unfold s, sorted, len. rewrite sorted_by_length. simpl. lia. }
  destruct (rank_of_bounds (len s) p Hn H0 H100) as [Hk0 Hk1].
  destruct (floor_ceiling_bounds _ _ Hk0 Hk1) as (Hf0 & Hfc & Hc1).
  unfold interpolate. cbv zeta. set (k := rank_of (len s) p) in *.
  destruct (Qfloor k =? Qceiling k).
  - rewrite int_of_nonneg by exact Hk0.
    destruct (py_index_in_range s (Qfloor k)) as (a & -> & _); [lia|]. eauto.
  - destruct (py_index_in_range s (Qfloor k)) as (a & -> & _); [lia|].
    destruct (py_index_in_range s (Qceiling k)) as (b & -> & _); [lia|].
    simpl. eauto.
Qed.

(** * aggregate_samples *)

Lemma count_errors_acc (samples : list sample) (acc : Z) :
  fold_left (fun acc s => if negb (success s) then acc + 1 else acc) samples acc
  = acc + count_errors samples.
Proof.
  unfold count_errors. revert acc.
  induction samples as [|s t IH]; intros acc; simpl; [lia|].
  rewrite IH, (IH (if negb (success s) then 0 + 1 else 0)).
  destruct (negb (success s)); lia.
Qed.

Lemma count_errors_cons (s : sample) (t : list sample) :
  count_errors (s :: t) = (if success s then 0 else 1) + count_errors t.
Proof.
  unfold count_errors at 1. simpl. rewrite count_errors_acc.
  destruct (success s); reflexivity.
Qed.

Lemma count_errors_bounds (samples : list sample) :
  0 <= count_errors samples <= len samples.
Proof.
  induction samples as [|s t IH]; [unfold count_errors, len; simpl; lia|].
  rewrite count_errors_cons. unfold len in *. simpl List.length.
  destruct (success s); lia.
Qed.

Lemma aggregate_samples_nonempty (samples : list sample) :
  samples <> [] ->
  exists avg p95,
    mean (map elapsed samples) = Ok avg
    /\ percentile (map elapsed samples) 95 = Ok p95
    /\ aggregate_samples samples =
       Ok {| count := len samples; avg_ms := avg; p95_ms := p95;
             throughput := throughput_of samples;
             errors := count_errors samples;
             agg_success := len samples - count_errors samples;
             err_rate := Fin (err_rate_of samples) |}.
Proof.
  intros Hne. destruct samples as [|s0 t]; [congruence|].
  set (samples := s0 :: t) in *.
  assert (Hlen : 0 < len samples) by (unfold len, samples; simpl; lia).
  destruct (mean_total (map elapsed samples)) as [avg Havg]; [discriminate|].
  destruct (percentile_total (map elapsed samples) 95) as [p95 Hp95]; [lra | lra |].
  exists avg, p95. split; [exact Havg|]. split; [exact Hp95|].
  unfold aggregate_samples. fold samples. cbv zeta.
  rewrite Havg, Hp95. cbn [bind]. rewrite len_map.
  unfold throughput_of, err_rate_of.
  replace (len samples >? 0) with true by (symmetry; apply Z.gtb_lt; exact Hlen).
  unfold of_int at 3 4. rewrite fdiv_Fin by (apply inject_Z_pos_neq; exact Hlen).
  cbn [bind fmul].
  destruct (fsum (map elapsed samples)) as [|sm].
  - reflexivity.
  - unfold fdiv at 1. replace (Qeq_bool 1000 0) with false by reflexivity.
    cbn [bind]. unfold fgt, flt, of_int. change (inject_Z 0) with 0%Q.
    assert (Hq : Qltb 0 (sm / 1000) = Qltb 0 sm).
    { destruct (Qltb 0 sm) eqn:E; qcmp.
      - apply Qltb_lt. apply Qlt_shift_div_l; [reflexivity | lra].
      - apply Qltb_ge. apply Qle_shift_div_r; [reflexivity | lra]. }
    rewrite Hq. destruct (Qltb 0 sm) eqn:E; [|reflexivity].
    qcmp. rewrite fdiv_Fin; [reflexivity|].
    intros H0. assert (0 < sm / 1000)%Q by (apply Qlt_shift_div_l; [reflexivity | lra]).
    lra.
Qed.

Lemma aggregate_samples_total (samples : list sample) :
  exists a, aggregate_samples samples = Ok a.
Proof.
  destruct samples as [|s t] eqn:E; [eexists; reflexivity|].
  destruct (aggregate_samples_nonempty (s :: t)) as (avg & p95 & _ & _ & H);
    [discriminate|]. eauto.
Qed.

(** * The baseline *)

Lemma valid_p95_keep (name : string) (h : history_row) :
  bool_decide (h_scenario h = name) && negb (isnan (h_p95_ms h))
    && fgt (h_p95_ms h) (of_int 0)
  = match valid_p95 name h with Some _ => true | None => false end.
Proof.
  unfold valid_p95. destruct (decide (h_scenario h = name)) as [E|E].
  - rewrite (bool_decide_eq_true_2 _ E). destruct (h_p95_ms h) as [|q]; [reflexivity|].
    cbn [isnan negb andb fgt flt of_int]. change (inject_Z 0) with 0%Q.
    destruct (Qltb 0 q); reflexivity.
  - rewrite (bool_decide_eq_false_2 _ E). reflexivity.
Qed.

Lemma valid_p95_value (name : string) (h : history_row) (q : Q) :
  valid_p95 name h = Some q -> h_p95_ms h = Fin q.
Proof.
  unfold valid_p95. destruct (decide _); [|discriminate].
  destruct (h_p95_ms h) as [|q']; [discriminate|].
  destruct (Qltb 0 q'); [|discriminate]. congruence.
Qed.

Lemma hist_vals_p95 (history : list history_row) (name : string) :
  map h_p95_ms (hist_vals history name) = map Fin (matching_valid_p95 history name).
Proof.
  unfold hist_vals.
  induction history as [|h t IH]; [reflexivity|].
  cbn [List.filter matching_valid_p95]. rewrite valid_p95_keep.
  destruct (valid_p95 name h) as [q|] eqn:E; [|exact IH].
  cbn [map]. rewrite IH, (valid_p95_value _ _ _ E). reflexivity.
Qed.

Lemma last_n_nonempty {A : Type} (n : nat) (l : list A) :
  (0 < n)%nat -> l <> [] -> last_n n l <> [].
Proof.
  intros Hn Hl E. apply (f_equal (@List.length A)) in E.
  unfold last_n in E. rewrite length_skipn in E. simpl in E.
  destruct l; [congruence|]. simpl in E. lia.
Qed.

Lemma take_last_10 (qs : list Q) :
  (if len (map Fin qs) >? 10 then py_slice_from (map Fin qs) (- 10) else map Fin qs)
  = map Fin (last_n 10 qs).
Proof.
  rewrite len_map. unfold last_n, py_slice_from, len. rewrite length_map.
  destruct (Z.gtb_spec (Z.of_nat (List.length qs)) 10) as [H|H].
  - cbn [Z.ltb Z.opp Z.compare]. rewrite skipn_map. f_equal. f_equal. lia.
  - replace (List.length qs - 10)%nat with 0%nat by lia. reflexivity.
Qed.

Lemma moving_average_Fin (qs : list Q) :
  moving_average (map Fin qs) 10 =
  match last_n 10 qs with
  | [] => Ok NaN
  | l => Ok (Fin (fold_left Qplus l 0%Q / inject_Z (len l)))
  end.
Proof.
  destruct qs as [|q t] eqn:E; [reflexivity|]. rewrite <- E.
  assert (Hne : qs <> []) by (rewrite E; discriminate).
  unfold moving_average. destruct (map Fin qs) eqn:Em.
  { rewrite E in Em. discriminate. }
  rewrite <- Em. rewrite take_last_10.
  pose proof (last_n_nonempty 10 qs ltac:(lia) Hne) as Hl.
  rewrite mean_Fin by exact Hl.
  destruct (last_n 10 qs); [congruence | reflexivity].
Qed.

Lemma baseline_p95_spec (history : list history_row) (name : string) :
  result_feq (baseline_p95 history name) (Ok (spec_baseline history name)).
Proof.
  unfold baseline_p95, spec_baseline. rewrite hist_vals_p95, moving_average_Fin.
  destruct (last_n 10 (matching_valid_p95 history name)) as [|q l]; [exact I|].
  set (sel := q :: l). unfold result_feq, feq, arithmetic_mean, len.
  rewrite fold_left_Qplus. apply Qdiv_comp; [apply Qplus_0_l | reflexivity].
Qed.

Lemma baseline_p95_total (history : list history_row) (name : string) :
  exists b, baseline_p95 history name = Ok b.
Proof.
  unfold baseline_p95. rewrite hist_vals_p95, moving_average_Fin.
  destruct (last_n 10 _); eauto.
Qed.

(** * The run *)

Lemma evaluate_scenario_total (history : list history_row) (name : string) (agg : aggregate) :
  exists v, evaluate_scenario history name agg = Ok (s_level v, v)
            /\ well_classified (s_level v) (s_note v).
Proof.
  unfold evaluate_scenario.
  destruct (baseline_p95_total history name) as [b ->]. cbn [bind].
  destruct (classify_total b (p95_ms agg)) as (cl & -> & Hwf). cbn [bind].
  exists {| s_avg_ms := avg_ms agg; s_p95_ms := p95_ms agg;
            s_throughput := throughput agg; s_err_rate := err_rate agg;
            s_baseline_p95_ms := b; s_delta_pct := c_delta_pct cl;
            s_level := c_level cl; s_note := c_note cl |}.
  split; [reflexivity|]. exact Hwf.
Qed.

Lemma dict_set_values {V : Type} (P : V -> Prop) (d : list (string * V)) (k : string) (v : V) :
  Forall P (dict_values d) -> P v -> Forall P (dict_values (dict_set d k v)).
Proof.
  unfold dict_values. intros Hd Hv. induction d as [|[k' v'] t IH]; simpl.
  - constructor; [exact Hv | constructor].
  - inversion Hd; subst. destruct (decide (k' = k)); simpl.
    + constructor; assumption.
    + constructor; [assumption | apply IH; assumption].
Qed.

Lemma evaluate_all_total (history : list history_row) (scenarios : list (string * aggregate))
      (worst : level) (summary : list (string * scenario_summary)) :
  Forall entry_ok (dict_values summary) ->
  exists worst' summary',
    evaluate_all history scenarios worst summary = Ok (worst', summary')
    /\ Forall entry_ok (dict_values summary').
Proof.
  revert worst summary. induction scenarios as [|[name agg] rest IH]; intros worst summary Hs.
  - exists worst, summary. split; [reflexivity | exact Hs].
  - cbn [evaluate_all].
    destruct (evaluate_scenario_total history name agg) as (v & -> & Hv). cbn [bind fst snd].
    apply IH. apply dict_set_values; assumption.
Qed.

Lemma should_block_iff (summary : list (string * scenario_summary)) :
  Forall entry_ok (dict_values summary) ->
  (should_block summary = true <->
   exists name v, In (name, v) summary /\ s_note v = "BLOCK (>20%)"%string).
Proof.
  intros Hok. unfold should_block. rewrite existsb_exists. split.
  - intros (v & Hin & Hb). unfold dict_values in Hin. apply in_map_iff in Hin.
    destruct Hin as ([name v'] & Hv & Hin). simpl in Hv. subst v'.
    exists name, v. split; [exact Hin|]. apply blocks_iff; [|exact Hb].
    rewrite List.Forall_forall in Hok. apply Hok.
    unfold dict_values. apply in_map_iff. exists (name, v). split; [reflexivity | exact Hin].
  - intros (name & v & Hin & Hn). exists v.
    assert (Hv : In v (dict_values summary)).
    { unfold dict_values. apply in_map_iff. exists (name, v). split; [reflexivity | exact Hin]. }
    split; [exact Hv|]. apply blocks_iff; [|exact Hn].
    rewrite List.Forall_forall in Hok. apply Hok. exact Hv.
Qed.

Section MainFacts.

Variable float_of_str : string -> result pyfloat.

Lemma collect_scenarios_total (result_files : list (string * csv_file))
      (scenarios : list (string * aggregate)) :
  exists scenarios', collect_scenarios float_of_str result_files scenarios = Ok scenarios'.
Proof.
  revert scenarios. induction result_files as [|[name file] rest IH]; intros scenarios.
  - eexists. reflexivity.
  - cbn [collect_scenarios].
    destruct (aggregate_samples_total (read_jmeter_csv float_of_str file)) as [a ->].
    cbn [bind]. apply IH.
Qed.

Lemma main_total (result_files : list (string * csv_file)) (history : list history_row) :
  exists out, main float_of_str result_files history = Ok out
              /\ Forall entry_ok (dict_values (out_scenarios out))
              /\ exit_code out = (if should_block (out_scenarios out) then 2 else 0).
Proof.
  unfold main. destruct result_files as [|rf rest].
  - eexists. split; [reflexivity|]. split; [constructor | reflexivity].
  - destruct (collect_scenarios_total (rf :: rest) []) as [sc ->]. cbn [bind].
    destruct (evaluate_all_total history sc green []) as (w & sm & -> & Hok);
      [constructor|]. cbn [bind fst snd].
    eexists. split; [reflexivity|]. split; [exact Hok | reflexivity].
Qed.

End MainFacts.

(** * The reader *)

Lemma truthy_None (o : option string) :
  truthy o = None <-> (o = None \/ o = Some EmptyString).
Proof.
  unfold truthy. destruct o as [s|]; [|tauto].
  destruct (decide (s = EmptyString)) as [->|Hs].
  - tauto.
  - split; [discriminate|]. intros [H|H]; congruence.
Qed.

Lemma get_or_None (row : gmap string string) (k1 k2 : string) :
  get_or row k1 k2 = None <-> (absent_or_empty row k1 /\ absent_or_empty row k2).
Proof.
  unfold get_or, absent_or_empty. rewrite <- !truthy_None.
  destruct (truthy (row !! k1)); [|tauto].
  split; [discriminate|]. intros [H _]. discriminate.
Qed.

Section ReaderFacts.

Variable float_of_str : string -> result pyfloat.

Lemma fold_read_step (rows : list (gmap string string)) (acc : list sample) :
  fold_left (read_step float_of_str) rows acc = acc ++ flat_map (kept float_of_str) rows.
Proof.
  revert acc. induction rows as [|row t IH]; intros acc; simpl.
  - rewrite app_nil_r. reflexivity.
  - rewrite IH. unfold read_step, kept.
    destruct (parse_row float_of_str row); [rewrite <- app_assoc|]; reflexivity.
Qed.

Lemma read_jmeter_csv_rows (hdr : list string) (rows : list (gmap string string)) :
  read_jmeter_csv float_of_str (mk_csv (Some hdr) rows) = flat_map (kept float_of_str) rows.
Proof. unfold read_jmeter_csv. simpl. apply fold_read_step. Qed.

(** A row is dropped exactly when its elapsed text does not parse. *)
Lemma parse_row_raise (row : gmap string string) (e : exn) :
  parse_row float_of_str row = Raise e <->
  exists s, get_or row "elapsed" "Elapsed" = Some s /\ float_of_str s = Raise e.
Proof.
  unfold parse_row. destruct (get_or row "elapsed" "Elapsed") as [s|]; simpl.
  - destruct (float_of_str s) as [x|e'] eqn:E; simpl.
    + split; [discriminate|]. intros (s' & Hs & H). congruence.
    + split.
      * intros H. exists s. split; [reflexivity | congruence].
      * intros (s' & Hs & H). congruence.
  - split; [discriminate|]. intros (s' & Hs & _). discriminate.
Qed.

Lemma kept_bad (row : gmap string string) (e : exn) :
  parse_row float_of_str row = Raise e -> kept float_of_str row = [].
Proof. intros H. unfold kept. rewrite H. reflexivity. Qed.

Lemma read_skip_bad (hdr : option (list string)) (rows1 rows2 : list (gmap string string))
      (row : gmap string string) (e : exn) :
  parse_row float_of_str row = Raise e ->
  read_jmeter_csv float_of_str (mk_csv hdr (rows1 ++ row :: rows2))
  = read_jmeter_csv float_of_str (mk_csv hdr (rows1 ++ rows2)).
Proof.
  intros H. destruct hdr as [hdr|]; [|reflexivity].
  rewrite !read_jmeter_csv_rows, !flat_map_app. simpl.
  rewrite (kept_bad row e H). reflexivity.
Qed.

End ReaderFacts.

(** * Examples *)

Example float_of_decimal_ex :
  float_of_decimal "12" = Ok (Fin 12)
  /\ float_of_decimal "abc" = Raise ValueError
  /\ float_of_decimal "" = Raise ValueError
  /\ result_feq (float_of_decimal "1.50") (Ok (Fin 1.5)).
Proof. vm_compute. repeat split; reflexivity. Qed.

Example percentile_95_ex :
  result_feq (percentile [Fin 40; Fin 10; Fin 30; Fin 20] 95) (Ok (Fin 38.5)).
Proof. vm_compute. reflexivity. Qed.

(** The boundary arithmetic of the classifier in binary64, as the script
    runs it: (105 - 100) / 100 * 100 is exactly 5.0, and (121 - 100) / 100 *
    100 is above 20. *)
Example boundary_binary64 :
  PrimFloat.eqb (PrimFloat.mul (PrimFloat.div (PrimFloat.sub 105 100) 100) 100) 5 = true
  /\ PrimFloat.ltb 20 (PrimFloat.mul (PrimFloat.div (PrimFloat.sub 121 100) 100) 100) = true.
Proof. split; reflexivity. Qed.

(** The float sum depends on the order of its terms in binary64:
    0.1 + 0.2 + 0.3 and 0.3 + 0.2 + 0.1, summed from 0, differ. *)
Example float_sum_depends_on_order :
  PrimFloat.eqb
    (fold_left PrimFloat.add
       [0x1.999999999999ap-4; 0x1.999999999999ap-3; 0x1.3333333333333p-2]%float 0%float)
    (fold_left PrimFloat.add
       [0x1.3333333333333p-2; 0x1.999999999999ap-3; 0x1.999999999999ap-4]%float 0%float)
  = false.
Proof. reflexivity. Qed.

Example baseline_ex : result_feq (baseline_p95 history_1_to_15 "s") (Ok (Fin 10.5)).
Proof. vm_compute. reflexivity. Qed.

Example main_red_ex :
  exists v, main float_of_decimal [("s"%string, one_sample_file "115")] [history_row_of "s" (Fin 100)]
  = Ok (mk_run_output [("s"%string, v)] (Some red) 0)
  /\ s_note v = "RED (>10%)"%string /\ s_level v = red.
Proof. eexists. split; [vm_compute; reflexivity|]. split; reflexivity. Qed.

Example main_block_ex :
  exists v, main float_of_decimal [("s"%string, one_sample_file "121")] [history_row_of "s" (Fin 100)]
  = Ok (mk_run_output [("s"%string, v)] (Some red) 2)
  /\ s_note v = "BLOCK (>20%)"%string /\ s_level v = red.
Proof. eexists. split; [vm_compute; reflexivity|]. split; reflexivity. Qed.

Example read_ex :
  read_jmeter_csv float_of_decimal (mk_csv (Some ["elapsed"%string]) [row_without_success_and_label])
  = [mk_sample (Fin 12) false "unknown"].
Proof. vm_compute. reflexivity. Qed.

(** * The properties of the specification *)

(** C9: [percentile] is invariant under permutation of its input: for every
    list of reals, every permutation of it and every p (in particular every
    p in [0,100]), both calls return the same number, or both return NaN on
    the empty list. *)
Theorem percentile_permutation_invariant (values permuted : list Q) (p : Q) :
  Permutation values permuted ->
  result_feq (percentile (map Fin values) p) (percentile (map Fin permuted) p).
Proof. apply percentile_perm. Qed.

Lemma percentile_permutation_invariant_witness :
  Permutation [30; 10; 40; 20]%Q [10; 20; 30; 40]%Q
  /\ result_feq (percentile (map Fin [30; 10; 40; 20]%Q) 95)
                (percentile (map Fin [10; 20; 30; 40]%Q) 95).
Proof.
  assert (H : Permutation [30; 10; 40; 20]%Q [10; 20; 30; 40]%Q).
  { exact (sorted_by_perm Qltb [30; 10; 40; 20]%Q). }
  split; [exact H|].
  apply (percentile_permutation_invariant _ _ 95 H).
Defined.

(** C5: for a non-empty sequence of reals and p in [0,100], [percentile]
    is the linearly interpolated order statistic of the values sorted
    ascending (k = (n-1)p/100, f = floor k, c = ceil k; values[k] when
    f = c, else values[f](c-k) + values[c](k-f)); on the empty input it is
    NaN; p = 0 gives the minimum, p = 100 the maximum, and
    percentile([10,20,30,40], 50) is 25. *)
Theorem percentile_is_interpolated_order_statistic :
  (forall (values s : list Q) (p : Q),
      values <> [] -> (0 <= p)%Q -> (p <= 100)%Q ->
      Permutation s values -> StronglySorted Qle s ->
      result_feq (percentile (map Fin values) p)
                 (Ok (Fin (interpolated_order_statistic s p))))
  /\ (forall p : Q, percentile [] p = Ok NaN)
  /\ (forall values : list Q, values <> [] ->
        exists m, percentile (map Fin values) 0 = Ok (Fin m)
                  /\ In m values /\ Forall (fun v => (m <= v)%Q) values)
  /\ (forall values : list Q, values <> [] ->
        exists m, percentile (map Fin values) 100 = Ok (Fin m)
                  /\ In m values /\ Forall (fun v => (v <= m)%Q) values)
  /\ result_feq (percentile [Fin 10; Fin 20; Fin 30; Fin 40] 50) (Ok (Fin 25)).
Proof.
  split; [|split; [|split; [|split]]].
  - intros values s p. apply percentile_sorted_spec.
  - reflexivity.
  - apply percentile_0_min.
  - apply percentile_100_max.
  - vm_compute. reflexivity.
Qed.

Lemma percentile_is_interpolated_order_statistic_witness :
  result_feq (percentile (map Fin [30; 10; 40; 20]%Q) 50)
             (Ok (Fin (interpolated_order_statistic [10; 20; 30; 40]%Q 50))).
Proof.
  apply (proj1 percentile_is_interpolated_order_statistic).
  - discriminate.
  - discriminate.
  - discriminate.
  - apply Permutation_sym. exact (sorted_by_perm Qltb [30; 10; 40; 20]%Q).
  - repeat constructor; discriminate.
Defined.

(** C2: with a valid baseline (not NaN and > 0) and a current p95 that is
    not NaN, the classifier computes deltaPct = (current - baseline) /
    baseline * 100 and assigns the bands first match wins, with exclusive
    boundaries: > 20 red "BLOCK (>20%)", else > 10 red "RED (>10%)", else
    > 5 yellow "YELLOW (>5%)", else green "OK". *)
Theorem classifier_bands (baseline current : pyfloat) :
  isnan baseline = false -> fgt baseline (of_int 0) = true -> isnan current = false ->
  exists (b c : Q) (cl : classification),
    baseline = Fin b /\ current = Fin c
    /\ classify baseline current = Ok cl
    /\ let delta_pct := ((c - b) / b * 100)%Q in
       c_delta_pct cl = Fin delta_pct
       /\ ((20 < delta_pct)%Q ->
           c_level cl = red /\ c_note cl = "BLOCK (>20%)"%string)
       /\ ((delta_pct <= 20)%Q -> (10 < delta_pct)%Q ->
           c_level cl = red /\ c_note cl = "RED (>10%)"%string)
       /\ ((delta_pct <= 10)%Q -> (5 < delta_pct)%Q ->
           c_level cl = yellow /\ c_note cl = "YELLOW (>5%)"%string)
       /\ ((delta_pct <= 5)%Q ->
           c_level cl = green /\ c_note cl = "OK"%string).
Proof.
  intros Hb Hpos Hc.
  destruct baseline as [|b]; [discriminate|]. destruct current as [|c]; [discriminate|].
  apply (fgt_Fin b 0) in Hpos.
  exists b, c, (band ((c - b) / b * 100)).
  split; [reflexivity|]. split; [reflexivity|].
  split; [apply classify_valid; exact Hpos|]. cbv zeta.
  set (d := ((c - b) / b * 100)%Q).
  destruct (band_cases d) as (H20 & H10 & H5 & H0).
  split; [unfold band; destruct (Qltb 20 d), (Qltb 10 d), (Qltb 5 d); reflexivity|].
  split; [intros H; rewrite (H20 H); split; reflexivity|].
  split; [intros H H'; rewrite (H10 H' H); split; reflexivity|].
  split; [intros H H'; rewrite (H5 H' H); split; reflexivity|].
  intros H; rewrite (H0 H); split; reflexivity.
Qed.

(** The boundary case of C2: baseline 100 and current 105 give deltaPct 5,
    which is not above the warning threshold: green, "OK". *)
Lemma classifier_bands_witness :
  exists cl, classify (Fin 100) (Fin 105) = Ok cl
             /\ feq (c_delta_pct cl) (Fin 5)
             /\ c_level cl = green /\ c_note cl = "OK"%string.
Proof.
  destruct (classifier_bands (Fin 100) (Fin 105) eq_refl eq_refl eq_refl)
    as (b & c & cl & Eb & Ec & Hcl & Hd & _ & _ & _ & Hok).
  exists cl. injection Eb as <-. injection Ec as <-.
  split; [exact Hcl|]. split; [rewrite Hd; reflexivity|].
  apply Hok. discriminate.
Defined.

(** C3: when the baseline is NaN or <= 0, or the current p95 is NaN, the
    classifier yields green, "no baseline" and a NaN delta, and the entry of
    that scenario never triggers the gating block. *)
Theorem no_baseline_is_green_and_never_blocks (avg_p95 cur_p95 : pyfloat) :
  isnan avg_p95 = true \/ fle avg_p95 (of_int 0) = true \/ isnan cur_p95 = true ->
  classify avg_p95 cur_p95 = Ok (mk_classification NaN green check_mark "no baseline")
  /\ forall (history : list history_row) (name : string) (agg : aggregate),
      baseline_p95 history name = Ok avg_p95 -> p95_ms agg = cur_p95 ->
      exists v, evaluate_scenario history name agg = Ok (green, v)
                /\ s_delta_pct v = NaN /\ s_level v = green
                /\ s_note v = "no baseline"%string
                /\ blocks v = false
                /\ forall d1 d2, should_block (d1 ++ (name, v) :: d2) = should_block (d1 ++ d2).
Proof.
  intros H. pose proof (classify_no_baseline _ _ H) as Hc. split; [exact Hc|].
  intros history name agg Hb Hp. unfold evaluate_scenario.
  rewrite Hb. cbn [bind]. rewrite Hp, Hc. cbn [bind].
  eexists. split; [reflexivity|]. cbn.
  repeat split. intros d1 d2. unfold should_block, dict_values.
  rewrite !map_app, !existsb_app. cbn. reflexivity.
Qed.

Lemma no_baseline_is_green_and_never_blocks_witness :
  classify NaN (Fin 120) = Ok (mk_classification NaN green check_mark "no baseline")
  /\ exists v, evaluate_scenario [] "search" (mk_aggregate 1 (Fin 120) (Fin 120) (Fin 1) 0 1 (Fin 0))
               = Ok (green, v)
               /\ s_note v = "no baseline"%string /\ blocks v = false.
Proof.
  destruct (no_baseline_is_green_and_never_blocks NaN (Fin 120) (or_introl eq_refl))
    as [Hc Hrun].
  split; [exact Hc|].
  destruct (Hrun [] "search"%string (mk_aggregate 1 (Fin 120) (Fin 120) (Fin 1) 0 1 (Fin 0))
                 eq_refl eq_refl) as (v & Hv & _ & _ & Hn & Hb & _).
  exists v. repeat split; assumption.
Defined.

Lemma err_rate_of_bounds (samples : list sample) :
  (0 <= err_rate_of samples)%Q /\ (err_rate_of samples <= 100)%Q.
Proof.
  unfold err_rate_of. destruct (Z.gtb_spec (len samples) 0) as [Hlen|Hlen].
  - pose proof (count_errors_bounds samples) as [He0 He1].
    assert (Hn : (0 < inject_Z (len samples))%Q).
    { change 0%Q with (inject_Z 0). rewrite <- Zlt_Qlt. exact Hlen. }
    assert (H0 : (0 <= inject_Z (count_errors samples))%Q).
    { change 0%Q with (inject_Z 0). rewrite <- Zle_Qle. exact He0. }
    assert (H1 : (inject_Z (count_errors samples) <= inject_Z (len samples))%Q).
    { rewrite <- Zle_Qle. exact He1. }
    assert (Hq0 : (0 <= inject_Z (count_errors samples) / inject_Z (len samples))%Q).
    { apply Qle_shift_div_l; [exact Hn | lra]. }
    assert (Hq1 : (inject_Z (count_errors samples) / inject_Z (len samples) <= 1)%Q).
    { apply Qle_shift_div_r; [exact Hn | lra]. }
    split; lra.
  - split; [apply Qle_refl | discriminate].
Qed.

(** C7: every aggregate has successCount + errorCount = count and an error
    rate between 0 and 100 that is recomputed from the counts
    (errors / count * 100 when count > 0, else 0). *)
Theorem aggregate_counts_and_error_rate (samples : list sample) :
  exists a, aggregate_samples samples = Ok a
            /\ agg_success a + errors a = count a
            /\ exists r, err_rate a = Fin r
                         /\ (0 <= r)%Q /\ (r <= 100)%Q
                         /\ r = (if count a >? 0
                                 then inject_Z (errors a) / inject_Z (count a) * 100
                                 else 0)%Q.
Proof.
  destruct samples as [|s t].
  - eexists. split; [reflexivity|]. split; [reflexivity|].
    exists 0%Q. repeat split; discriminate.
  - destruct (aggregate_samples_nonempty (s :: t)) as (avg & p95 & _ & _ & H);
      [discriminate|].
    eexists. split; [exact H|]. cbn [agg_success errors count err_rate].
    split; [lia|]. exists (err_rate_of (s :: t)).
    pose proof (err_rate_of_bounds (s :: t)) as [H0 H1].
    repeat split; assumption.
Qed.




(** C4: the baseline is the arithmetic mean of the p95 of the last (at most)
    10 history records, in stored order, whose scenario matches and whose
    p95 is not NaN and > 0, and NaN when there is none; 15 matching records
    with p95 1..15 give 10.5. *)
Theorem baseline_is_mean_of_last_10 :
  (forall (history : list history_row) (name : string),
      result_feq (baseline_p95 history name) (Ok (spec_baseline history name)))
  /\ result_feq (baseline_p95 history_1_to_15 "s") (Ok (Fin 10.5)).
Proof.
  split; [apply baseline_p95_spec|]. vm_compute. reflexivity.
Qed.

(** C1: the run returns the gating exit code 2 if and only if the note of
    at least one scenario is "BLOCK (>20%)", and 0 otherwise; an entry whose
    note is "RED (>10%)" or "YELLOW (>5%)" does not pass the gating test,
    although a "RED (>10%)" entry has level red. *)
Theorem gating_blocks_iff_block_note
        (float_of_str : string -> result pyfloat)
        (result_files : list (string * csv_file)) (history : list history_row) :
  exists out,
    main float_of_str result_files history = Ok out
    /\ (exit_code out = 2 <->
        exists name v, In (name, v) (out_scenarios out)
                       /\ s_note v = "BLOCK (>20%)"%string)
    /\ (exit_code out = 2 \/ exit_code out = 0)
    /\ (forall name v, In (name, v) (out_scenarios out) ->
                       s_note v = "RED (>10%)"%string ->
                       s_level v = red /\ blocks v = false)
    /\ (forall name v, In (name, v) (out_scenarios out) ->
                       s_note v = "YELLOW (>5%)"%string ->
                       s_level v = yellow /\ blocks v = false).
Proof.
  destruct (main_total float_of_str result_files history) as (out & Hmain & Hok & Hcode).
  exists out. split; [exact Hmain|].
  pose proof (should_block_iff _ Hok) as Hiff.
  assert (Hentry : forall name v, In (name, v) (out_scenarios out) -> entry_ok v).
  { intros name v Hin. rewrite List.Forall_forall in Hok. apply Hok.
    unfold dict_values. apply in_map_iff. exists (name, v). split; [reflexivity | exact Hin]. }
  split; [|split; [|split]].
  - rewrite <- Hiff, Hcode. destruct (should_block (out_scenarios out)).
    + split; reflexivity.
    + split; discriminate.
  - rewrite Hcode. destruct (should_block (out_scenarios out)); [left | right]; reflexivity.
  - intros name v Hin Hn. pose proof (Hentry name v Hin) as Hwf.
    split.
    + unfold entry_ok, well_classified in Hwf. rewrite Hn in Hwf.
      destruct Hwf as [[_ H]|[[H _]|[[_ H]|[[_ H]|[_ H]]]]];
        [discriminate | exact H | discriminate | discriminate | discriminate].
    + destruct (blocks v) eqn:Eb; [|reflexivity].
      apply (blocks_iff v Hwf) in Eb. rewrite Hn in Eb. discriminate.
  - intros name v Hin Hn. pose proof (Hentry name v Hin) as Hwf.
    split.
    + unfold entry_ok, well_classified in Hwf. rewrite Hn in Hwf.
      destruct Hwf as [[_ H]|[[_ H]|[[H _]|[[_ H]|[_ H]]]]];
        [discriminate | discriminate | exact H | discriminate | discriminate].
    + destruct (blocks v) eqn:Eb; [|reflexivity].
      apply (blocks_iff v Hwf) in Eb. rewrite Hn in Eb. discriminate.
Qed.

(** C10: a row whose fields are missing or empty is included with
    defaults: a missing or empty elapsed becomes 0.0, a missing success, or
    one that is not "true" whatever the case of its letters, gives
    success = false and the sample counts as an error, a missing label
    becomes "unknown"; a row is dropped only when float() raises on its
    elapsed text. *)
Theorem rows_with_missing_fields_get_defaults
        (float_of_str : string -> result pyfloat) (row : gmap string string) :
  (absent_or_empty row "elapsed" -> absent_or_empty row "Elapsed" ->
   exists s, parse_row float_of_str row = Ok s /\ elapsed s = Fin 0
             /\ kept float_of_str row = [s])
  /\ (forall s, parse_row float_of_str row = Ok s ->
        (absent_or_empty row "success" -> absent_or_empty row "Success" ->
         success s = false)
        /\ (forall text, get_or row "success" "Success" = Some text ->
                         (success s = true <-> lower text = "true"%string))
        /\ (success s = false ->
            forall before, count_errors (before ++ [s]) = count_errors before + 1)
        /\ (absent_or_empty row "label" -> absent_or_empty row "Label" ->
            label s = "unknown"%string))
  /\ (kept float_of_str row = [] <->
      exists text e, get_or row "elapsed" "Elapsed" = Some text
                     /\ float_of_str text = Raise e).
Proof.
  split; [|split].
  - intros H1 H2. pose proof (proj2 (get_or_None row _ _) (conj H1 H2)) as Hg.
    unfold kept, parse_row. rewrite Hg. cbn [py_float bind].
    eexists. split; [reflexivity|]. split; reflexivity.
  - intros s Hs.
    assert (Hs' : exists x, s = {| elapsed := x;
                    success := bool_decide
                       (lower (default "false"%string (get_or row "success" "Success"))
                        = "true"%string);
                    label := default "unknown"%string (get_or row "label" "Label") |}).
    { unfold parse_row in Hs.
      destruct (py_float float_of_str _) as [x|e]; cbn [bind] in Hs; [|discriminate].
      exists x. congruence. }
    destruct Hs' as [x ->]. cbn [success label].
    split; [|split; [|split]].
    + intros H1 H2. rewrite (proj2 (get_or_None row _ _) (conj H1 H2)). reflexivity.
    + intros text ->. cbn [default]. apply bool_decide_eq_true.
    + intros Hf before. unfold count_errors. rewrite fold_left_app. cbn [fold_left success].
      rewrite Hf. reflexivity.
    + intros H1 H2. rewrite (proj2 (get_or_None row _ _) (conj H1 H2)). reflexivity.
  - unfold kept. destruct (parse_row float_of_str row) as [s|e] eqn:E.
    + split; [discriminate|]. intros (text & e & Hg & Hf).
      pose proof (proj2 (parse_row_raise float_of_str row e) (ex_intro _ text (conj Hg Hf))).
      congruence.
    + split; [|reflexivity]. intros _.
      apply parse_row_raise in E as (text & Hg & Hf). eauto.
Qed.

Lemma rows_with_missing_fields_get_defaults_witness :
  absent_or_empty ({[ "label"%string := "s"%string ]} : gmap string string) "elapsed"
  /\ absent_or_empty ({[ "label"%string := "s"%string ]} : gmap string string) "Elapsed"
  /\ exists s, parse_row float_of_decimal {[ "label"%string := "s"%string ]} = Ok s
               /\ elapsed s = Fin 0.
Proof.
  assert (H1 : absent_or_empty
                 ({[ "label"%string := "s"%string ]} : gmap string string) "elapsed")
    by (left; reflexivity).
  assert (H2 : absent_or_empty
                 ({[ "label"%string := "s"%string ]} : gmap string string) "Elapsed")
    by (left; reflexivity).
  split; [exact H1|]. split; [exact H2|].
  destruct (proj1 (rows_with_missing_fields_get_defaults float_of_decimal
                     {[ "label"%string := "s"%string ]}) H1 H2) as (s & Hs & He & _).
  exists s. split; assumption.
Defined.

(** C6 as stated fails: a row that has neither a success nor a label field
    is not skipped; it yields a sample with success = false and label
    "unknown", so the file does not read like the file without that row. *)
Lemma row_without_success_and_label_is_kept :
  absent_or_empty row_without_success_and_label "success"
  /\ absent_or_empty row_without_success_and_label "Success"
  /\ absent_or_empty row_without_success_and_label "label"
  /\ absent_or_empty row_without_success_and_label "Label"
  /\ read_jmeter_csv float_of_decimal
       (mk_csv (Some ["elapsed"%string]) [row_without_success_and_label])
     = [mk_sample (Fin 12) false "unknown"]
  /\ read_jmeter_csv float_of_decimal
       (mk_csv (Some ["elapsed"%string]) [row_without_success_and_label])
     <> read_jmeter_csv float_of_decimal (mk_csv (Some ["elapsed"%string]) []).
Proof.
  repeat split; try (left; reflexivity).
  vm_compute. discriminate.
Qed.

(** C6, amended: a row is skipped exactly when float() raises on its
    elapsed text, and every other row, also one without success or label,
    contributes one sample; the rows after a skipped one are still read; a
    file with one row whose elapsed text does not parse reads and aggregates
    like the file without that row. *)
Theorem unparseable_elapsed_rows_are_skipped
        (float_of_str : string -> result pyfloat) :
  (forall (hdr : list string) (rows : list (gmap string string)),
      read_jmeter_csv float_of_str (mk_csv (Some hdr) rows)
      = flat_map (kept float_of_str) rows)
  /\ (forall row : gmap string string,
         (kept float_of_str row = [] <->
          exists text e, get_or row "elapsed" "Elapsed" = Some text
                         /\ float_of_str text = Raise e)
         /\ (kept float_of_str row <> [] ->
             exists s, kept float_of_str row = [s]))
  /\ (forall (hdr : option (list string)) (rows1 rows2 : list (gmap string string))
             (row : gmap string string) (text : string) (e : exn),
         get_or row "elapsed" "Elapsed" = Some text ->
         float_of_str text = Raise e ->
         read_jmeter_csv float_of_str (mk_csv hdr (rows1 ++ row :: rows2))
         = read_jmeter_csv float_of_str (mk_csv hdr (rows1 ++ rows2))
         /\ aggregate_samples
              (read_jmeter_csv float_of_str (mk_csv hdr (rows1 ++ row :: rows2)))
            = aggregate_samples
                (read_jmeter_csv float_of_str (mk_csv hdr (rows1 ++ rows2)))).
Proof.
  split; [|split].
  - apply read_jmeter_csv_rows.
  - intros row. split.
    + unfold kept. destruct (parse_row float_of_str row) as [s|e] eqn:E.
      * split; [discriminate|]. intros (text & e & Hg & Hf).
        pose proof (proj2 (parse_row_raise float_of_str row e)
                          (ex_intro _ text (conj Hg Hf))).
        congruence.
      * split; [|reflexivity]. intros _.
        apply parse_row_raise in E as (text & Hg & Hf). eauto.
    + unfold kept. destruct (parse_row float_of_str row) as [s|e]; [eauto | congruence].
  - intros hdr rows1 rows2 row text e Hg Hf.
    assert (Hr : parse_row float_of_str row = Raise e).
    { apply parse_row_raise. eauto. }
    rewrite (read_skip_bad float_of_str hdr rows1 rows2 row e Hr).
    split; reflexivity.
Qed.

Lemma unparseable_elapsed_rows_are_skipped_witness :
  read_jmeter_csv float_of_decimal
    (mk_csv (Some ["elapsed"%string])
            ([ {[ "elapsed"%string := "10"%string ]} ]
               ++ {[ "elapsed"%string := "abc"%string ]}
               :: [ {[ "elapsed"%string := "30"%string ]} ]))
  = read_jmeter_csv float_of_decimal
      (mk_csv (Some ["elapsed"%string])
              ([ {[ "elapsed"%string := "10"%string ]} ]
                 ++ [ {[ "elapsed"%string := "30"%string ]} ])).
Proof.
  apply (proj2 (proj2 (unparseable_elapsed_rows_are_skipped float_of_decimal))
           (Some ["elapsed"%string])
           [ {[ "elapsed"%string := "10"%string ]} ]
           [ {[ "elapsed"%string := "30"%string ]} ]
           {[ "elapsed"%string := "abc"%string ]} "abc"%string ValueError);
    reflexivity.
Defined.

(** * Further properties of percentile *)

Lemma len_pos {A : Type} (l : list A) : l <> [] -> 1 <= len l.
Proof. destruct l; [congruence|]. unfold len. simpl. lia. Qed.

Lemma len_sorted_by {A : Type} (lt : A -> A -> bool) (l : list A) :
  len (sorted_by lt l) = len l.
Proof. unfold len. rewrite sorted_by_length. reflexivity. Qed.

Lemma py_index_beyond {A : Type} (l : list A) (i : Z) :
  len l <= i -> py_index l i = Raise IndexError.
Proof.
  intros Hi. unfold py_index. pose proof (Zle_0_nat (List.length l)) as Hl.
  assert (E0 : (i <? 0) = false) by (apply Z.ltb_ge; unfold len in Hi; lia).
  rewrite E0; cbv zeta; rewrite E0.
  replace (nth_error l (Z.to_nat i)) with (@None A); [reflexivity|].
  symmetry. apply nth_error_None. unfold len in Hi. lia.
Qed.

Lemma py_index_raises_IndexError {A : Type} (l : list A) (i : Z) (e : exn) :
  py_index l i = Raise e -> e = IndexError.
Proof.
  unfold py_index. cbv zeta. destruct (_ <? 0); [congruence|].
  destruct (nth_error l _); congruence.
Qed.

(** X3: [percentile] does not check p: on a list of two or more values
    every p above 100 raises IndexError.  (p is kept below 10^100, far from
    the values where the rank overflows in binary64.) *)
Theorem percentile_above_100_raises (values : list pyfloat) (p : Q) :
  2 <= len values -> (100 < p)%Q -> (p <= inject_Z (10 ^ 100))%Q ->
  percentile values p = Raise IndexError.
Proof.
  intros Hn Hp _.
  rewrite percentile_interpolate by (intros ->; unfold len in Hn; simpl in Hn; lia).
  unfold interpolate, sorted. rewrite len_sorted_by. cbv zeta.
  set (s := sorted_by flt values).
  assert (Hs : len s = len values) by apply len_sorted_by.
  set (k := rank_of (len values) p).
  assert (Hm : (1 <= inject_Z (len values - 1))%Q).
  { change 1%Q with (inject_Z 1). rewrite <- Zle_Qle. lia. }
  assert (Hk : (inject_Z (len values - 1) < k)%Q).
  { unfold k, rank_of.
    assert (Ht : (1 < p / 100)%Q) by (apply Qlt_shift_div_l; [reflexivity | lra]).
    rewrite <- (Qmult_1_r (inject_Z (len values - 1))) at 1.
    rewrite !(Qmult_comm (inject_Z (len values - 1))).
    apply Qmult_lt_compat_r; [lra | exact Ht]. }
  assert (Hc : len values <= Qceiling k).
  { pose proof (Qle_ceiling k) as H.
    assert (H' : (inject_Z (len values - 1) < inject_Z (Qceiling k))%Q) by lra.
    rewrite <- Zlt_Qlt in H'. lia. }
  destruct (Z.eqb_spec (Qfloor k) (Qceiling k)) as [E|E].
  - rewrite int_of_nonneg by lra. apply py_index_beyond. lia.
  - destruct (py_index s (Qfloor k)) as [v0|e] eqn:E0; cbn [bind].
    + rewrite (py_index_beyond s (Qceiling k)) by lia. reflexivity.
    + rewrite (py_index_raises_IndexError _ _ _ E0). reflexivity.
Qed.

Lemma percentile_above_100_raises_witness :
  percentile [Fin 10; Fin 20] 101 = Raise IndexError.
Proof.
  apply percentile_above_100_raises;
    [unfold len; simpl; lia | reflexivity | vm_compute; discriminate].
Defined.


(** X5: a slightly negative p is not refused: when the rank k = (n-1)p/100
    lies strictly between -1 and 0, the index -1 wraps to the end of the
    sorted list and the result mixes the greatest and the least value,
    max * (0 - k) + min * (k + 1). *)
Theorem percentile_negative_p_wraps (values : list Q) (p : Q) :
  2 <= len values ->
  (- (1) < rank_of (len values) p)%Q -> (rank_of (len values) p < 0)%Q ->
  exists mn mx r,
    In mn values /\ Forall (fun v => (mn <= v)%Q) values
    /\ In mx values /\ Forall (fun v => (v <= mx)%Q) values
    /\ percentile (map Fin values) p = Ok (Fin r)
    /\ (r == mx * (0 - rank_of (len values) p) + mn * (rank_of (len values) p + 1))%Q.
Proof.
  intros Hn Hk1 Hk0.
  assert (Hne : values <> []) by (intros ->; unfold len in Hn; simpl in Hn; lia).
  pose proof (sorted_by_perm Qltb values) as Hperm.
  pose proof (sorted_by_Q_sorted values) as Hsorted.
  pose proof (len_sorted_by Qltb values) as Hlen.
  rewrite percentile_interpolate by (destruct values; [congruence | discriminate]).
  rewrite sorted_Fin. unfold interpolate. rewrite len_map, Hlen. cbv zeta.
  remember (sorted_by Qltb values) as s eqn:Es0. clear Es0.
  remember (rank_of (len values) p) as k eqn:Ek. clear Ek.
  assert (Hf : Qfloor k = -1).
  { pose proof (Qfloor_le k) as H1.
    pose proof (Qfloor_resp_le _ _ (Qlt_le_weak _ _ Hk1)) as H2.
    change (Qfloor (- (1))) with (-1) in H2.
    assert (H3 : (inject_Z (Qfloor k) < inject_Z 0)%Q) by (change (inject_Z 0) with 0%Q; lra).
    rewrite <- Zlt_Qlt in H3. clear -H2 H3. lia. }
  assert (Hc : Qceiling k = 0).
  { pose proof (Qle_ceiling k) as H1.
    pose proof (Qceiling_resp_le _ _ (Qlt_le_weak _ _ Hk0)) as H2.
    change (Qceiling 0) with 0 in H2.
    assert (H3 : (inject_Z (-1) < inject_Z (Qceiling k))%Q)
      by (change (inject_Z (-1)) with (- (1))%Q; lra).
    rewrite <- Zlt_Qlt in H3. clear -H2 H3. lia. }
  rewrite Hf, Hc. change (-1 =? 0) with false. cbv iota.
  rewrite !py_index_Fin. cbv zeta. rewrite Hlen.
  change (-1 <? 0) with true. change (0 <? 0) with false. cbv iota.
  replace (-1 + len values <? 0) with false by (symmetry; apply Z.ltb_ge; lia).
  replace (len values <=? -1 + len values) with false by (symmetry; apply Z.leb_gt; lia).
  replace (len values <=? 0) with false by (symmetry; apply Z.leb_gt; lia).
  cbn [orb bind fmul fadd].
  replace (Z.to_nat (-1 + len values)) with (List.length s - 1)%nat
    by (unfold len in Hlen, Hn |- *; lia).
  rewrite nth_length_pred_last.
  destruct s as [|mn t] eqn:Es.
  { unfold len in Hlen, Hn. simpl in Hlen. lia. }
  rewrite <- Es in *.
  exists mn, (List.last s 0%Q). eexists.
  split; [eapply Permutation_in; [symmetry; exact Hperm | rewrite Es; left; reflexivity]|].
  split.
  { eapply Permutation_Forall; [symmetry; exact Hperm|].
    rewrite Es. apply sorted_head_least. rewrite <- Es. exact Hsorted. }
  split.
  { eapply Permutation_in; [symmetry; exact Hperm|].
    assert (Hs : s <> []) by (rewrite Es; discriminate).
    clear -Hs. induction s as [|x t IH]; [congruence|].
    destruct t as [|y t']; [left; reflexivity|]. right. apply IH. discriminate. }
  split.
  { eapply Permutation_Forall; [symmetry; exact Hperm|].
    apply sorted_last_greatest. exact Hsorted. }
  split; [reflexivity|].
  assert (Hnth : nth (Z.to_nat 0) s 0%Q = mn) by (rewrite Es; reflexivity).
  rewrite Hnth. unfold inject_Z. ring.
Qed.

Lemma percentile_negative_p_wraps_witness :
  exists mn mx r,
    In mn [10; 20]%Q /\ In mx [10; 20]%Q
    /\ percentile (map Fin [10; 20]%Q) (-50) = Ok (Fin r)
    /\ (r == mx * (0 - rank_of 2 (-50)) + mn * (rank_of 2 (-50) + 1))%Q.
Proof.
  destruct (percentile_negative_p_wraps [10; 20]%Q (-50))
    as (mn & mx & r & H1 & _ & H2 & _ & H3 & H4);
    [unfold len; simpl; lia | reflexivity | reflexivity |].
  exists mn, mx, r. repeat split; assumption.
Defined.

Example percentile_negative_ex :
  result_feq (percentile [Fin 10; Fin 20] (-50)) (Ok (Fin 15)).
Proof. vm_compute. reflexivity. Qed.

(** * Further properties of aggregate_samples *)

Lemma real_elapsed_values (samples : list sample) :
  real_elapsed samples ->
  map elapsed samples = map Fin (map real_of (map elapsed samples)).
Proof.
  induction 1 as [|s t Hs Ht IH]; [reflexivity|].
  cbn [map]. rewrite <- IH. destruct (elapsed s); [discriminate | reflexivity].
Qed.

Lemma fsum_NaN (l : list pyfloat) : fold_left fadd l NaN = NaN.
Proof. induction l as [|x t IH]; [reflexivity | exact IH]. Qed.

(** A sum that is a number has only numbers as terms. *)
Lemma fold_fadd_real (l : list pyfloat) (a : pyfloat) (total : Q) :
  fold_left fadd l a = Fin total -> Forall (fun x => isnan x = false) l.
Proof.
  revert a. induction l as [|x t IH]; intros a H; [constructor|].
  cbn [fold_left] in H. destruct a as [|qa]; [rewrite fsum_NaN in H; discriminate|].
  destruct x as [|qx]; [cbn in H; rewrite fsum_NaN in H; discriminate|].
  constructor; [reflexivity | eapply IH; exact H].
Qed.

Lemma sum_bounds (qs : list Q) (lo hi : Q) :
  Forall (fun v => (lo <= v)%Q) qs -> Forall (fun v => (v <= hi)%Q) qs ->
  (inject_Z (len qs) * lo <= fold_right Qplus 0 qs)%Q
  /\ (fold_right Qplus 0 qs <= inject_Z (len qs) * hi)%Q.
Proof.
  intros Hlo Hhi. induction qs as [|q t IH].
  - change (inject_Z (len (@nil Q))) with 0%Q. cbn [fold_right]. split; lra.
  - inversion Hlo; subst. inversion Hhi; subst.
    destruct IH as [IH1 IH2]; [assumption | assumption|].
    assert (E : (inject_Z (len (q :: t)) == inject_Z (len t) + 1)%Q).
    { unfold len. cbn [List.length]. rewrite Nat2Z.inj_succ, <- Z.add_1_r.
      rewrite inject_Z_plus. reflexivity. }
    cbn [fold_right]. rewrite E. split; lra.
Qed.

Lemma mean_within_bounds (qs : list Q) (lo hi : Q) :
  qs <> [] ->
  Forall (fun v => (lo <= v)%Q) qs -> Forall (fun v => (v <= hi)%Q) qs ->
  exists m, mean (map Fin qs) = Ok (Fin m) /\ (lo <= m)%Q /\ (m <= hi)%Q.
Proof.
  intros Hne Hlo Hhi. rewrite mean_Fin by exact Hne. eexists. split; [reflexivity|].
  pose proof (len_pos qs Hne) as Hn.
  assert (Hnq : (0 < inject_Z (len qs))%Q).
  { change 0%Q with (inject_Z 0). rewrite <- Zlt_Qlt. lia. }
  destruct (sum_bounds qs lo hi Hlo Hhi) as [H1 H2].
  rewrite fold_left_Qplus, Qplus_0_l. split.
  - apply Qle_shift_div_l; [exact Hnq|]. rewrite Qmult_comm. exact H1.
  - apply Qle_shift_div_r; [exact Hnq|]. rewrite Qmult_comm. exact H2.
Qed.

(** X6: when the elapsed values are numbers that lie between lo and hi,
    the avg_ms of the aggregate lies between lo and hi. *)
Theorem aggregate_avg_within_bounds (samples : list sample) (lo hi : Q) :
  samples <> [] -> real_elapsed samples ->
  Forall (fun s => (lo <= real_of (elapsed s))%Q) samples ->
  Forall (fun s => (real_of (elapsed s) <= hi)%Q) samples ->
  exists a avg,
    aggregate_samples samples = Ok a
    /\ avg_ms a = Fin avg /\ (lo <= avg)%Q /\ (avg <= hi)%Q.
Proof.
  intros Hne Hreal Hlo Hhi.
  set (qs := map real_of (map elapsed samples)).
  assert (Hqs : map elapsed samples = map Fin qs) by (apply real_elapsed_values; exact Hreal).
  assert (Hq : qs <> []).
  { intros E. apply (f_equal (@List.length Q)) in E. unfold qs in E.
    rewrite !length_map in E. destruct samples; [congruence | discriminate]. }
  assert (Hlo' : Forall (fun v => (lo <= v)%Q) qs).
  { unfold qs. rewrite map_map. apply List.Forall_map. exact Hlo. }
  assert (Hhi' : Forall (fun v => (v <= hi)%Q) qs).
  { unfold qs. rewrite map_map. apply List.Forall_map. exact Hhi. }
  destruct (aggregate_samples_nonempty samples Hne) as (avg & p95 & Havg & _ & Ha).
  rewrite Hqs in Havg.
  destruct (mean_within_bounds qs lo hi Hq Hlo' Hhi') as (m & Hm & Hm1 & Hm2).
  rewrite Hm in Havg. injection Havg as <-.
  eexists. exists m. split; [exact Ha|]. cbn [avg_ms]. repeat split; assumption.
Qed.

Lemma aggregate_avg_within_bounds_witness :
  exists a avg,
    aggregate_samples [mk_sample (Fin 100) true "s"; mk_sample (Fin 300) false "s"] = Ok a
    /\ avg_ms a = Fin avg /\ (100 <= avg)%Q /\ (avg <= 300)%Q.
Proof.
  apply (aggregate_avg_within_bounds
           [mk_sample (Fin 100) true "s"; mk_sample (Fin 300) false "s"] 100 300);
    try discriminate; repeat constructor; discriminate.
Defined.

Lemma count_errors_zero (samples : list sample) :
  count_errors samples = 0 <-> Forall (fun s => success s = true) samples.
Proof.
  induction samples as [|s t IH].
  - split; [constructor | reflexivity].
  - rewrite count_errors_cons. pose proof (count_errors_bounds t) as [H0 _].
    split.
    + intros H. destruct (success s) eqn:E; [|lia].
      constructor; [exact E | apply IH; lia].
    + intros H. inversion H as [|? ? Hs Ht]; subst. rewrite Hs.
      apply IH in Ht. lia.
Qed.

Lemma count_errors_all (samples : list sample) :
  count_errors samples = len samples <-> Forall (fun s => success s = false) samples.
Proof.
  induction samples as [|s t IH].
  - split; [constructor | reflexivity].
  - rewrite count_errors_cons. pose proof (count_errors_bounds t) as [_ H1].
    unfold len in *. cbn [List.length]. split.
    + intros H. destruct (success s) eqn:E; [lia|].
      constructor; [exact E | apply IH; lia].
    + intros H. inversion H as [|? ? Hs Ht]; subst. rewrite Hs.
      apply IH in Ht. lia.
Qed.

(** X8: for a non-empty sample list the error rate is 0 exactly when every
    sample succeeded and 100 exactly when every sample failed. *)
Theorem aggregate_error_rate_extremes (samples : list sample) :
  samples <> [] ->
  exists a r,
    aggregate_samples samples = Ok a /\ err_rate a = Fin r
    /\ ((r == 0)%Q <-> Forall (fun s => success s = true) samples)
    /\ ((r == 100)%Q <-> Forall (fun s => success s = false) samples).
Proof.
  intros Hne.
  destruct (aggregate_samples_nonempty samples Hne) as (avg & p95 & _ & _ & Ha).
  eexists. eexists. split; [exact Ha|]. cbn [err_rate]. split; [reflexivity|].
  pose proof (len_pos samples Hne) as Hn.
  assert (Hnq : (0 < inject_Z (len samples))%Q).
  { change 0%Q with (inject_Z 0). rewrite <- Zlt_Qlt. lia. }
  unfold err_rate_of. replace (len samples >? 0) with true by (symmetry; apply Z.gtb_lt; lia).
  rewrite <- count_errors_zero, <- count_errors_all.
  set (e := count_errors samples). set (n := len samples) in *.
  split; split.
  - intros H.
    assert (H' : (inject_Z e == 0 * inject_Z n)%Q).
    { rewrite <- (Qmult_div_r (inject_Z e) (inject_Z n)) by lra.
      rewrite (Qmult_comm (inject_Z n)). apply Qmult_comp; [|reflexivity]. lra. }
    rewrite Qmult_0_l in H'. unfold Qeq in H'. simpl in H'. lia.
  - intros ->. change (inject_Z 0) with 0%Q. field. lra.
  - intros H.
    assert (H' : (inject_Z e == 1 * inject_Z n)%Q).
    { rewrite <- (Qmult_div_r (inject_Z e) (inject_Z n)) at 1 by lra.
      rewrite (Qmult_comm (inject_Z n)). apply Qmult_comp; [|reflexivity]. lra. }
    rewrite Qmult_1_l in H'. unfold Qeq in H'. simpl in H'. lia.
  - intros ->. field. lra.
Qed.

Lemma aggregate_error_rate_extremes_witness :
  exists a r,
    aggregate_samples [mk_sample (Fin 100) true "s"; mk_sample (Fin 300) true "s"] = Ok a
    /\ err_rate a = Fin r /\ (r == 0)%Q.
Proof.
  destruct (aggregate_error_rate_extremes
              [mk_sample (Fin 100) true "s"; mk_sample (Fin 300) true "s"])
    as (a & r & Ha & Hr & H0 & _); [discriminate|].
  exists a, r. split; [exact Ha|]. split; [exact Hr|].
  apply H0. repeat constructor.
Defined.

Lemma sum_perm (l1 l2 : list Q) :
  Permutation l1 l2 -> (fold_right Qplus 0 l1 == fold_right Qplus 0 l2)%Q.
Proof.
  induction 1 as [| x l1 l2 H IH | x y l | l1 l2 l3 H1 IH1 H2 IH2]; cbn [fold_right].
  - reflexivity.
  - rewrite IH. reflexivity.
  - ring.
  - rewrite IH1. exact IH2.
Qed.

Lemma count_errors_perm (l1 l2 : list sample) :
  Permutation l1 l2 -> count_errors l1 = count_errors l2.
Proof.
  induction 1 as [| x l1 l2 H IH | x y l | l1 l2 l3 H1 IH1 H2 IH2].
  - reflexivity.
  - rewrite !count_errors_cons, IH. reflexivity.
  - rewrite !count_errors_cons. lia.
  - congruence.
Qed.

Lemma len_perm {A : Type} (l1 l2 : list A) : Permutation l1 l2 -> len l1 = len l2.
Proof. intros H. unfold len. rewrite (Permutation_length H). reflexivity. Qed.

(** X9: apart from the throughput, the order of the samples does not
    matter: when the elapsed values are numbers, a permutation of the
    samples has the same count, errors, success count and error rate and the
    same avg_ms and p95_ms.  (The throughput is left out: it is computed
    from the float sum of the elapsed values, which depends on their
    order.) *)
Theorem aggregate_permutation_invariant (samples permuted : list sample) :
  Permutation samples permuted -> real_elapsed samples ->
  exists a b,
    aggregate_samples samples = Ok a /\ aggregate_samples permuted = Ok b
    /\ same_aggregate_but_throughput a b.
Proof.
  intros Hperm Hreal.
  destruct samples as [|s0 t0] eqn:Es.
  { apply Permutation_nil in Hperm. subst permuted.
    do 2 eexists. split; [reflexivity|]. split; [reflexivity|].
    repeat split; reflexivity. }
  rewrite <- Es in *. assert (Hne : samples <> []) by (rewrite Es; discriminate). clear Es.
  assert (Hne' : permuted <> []).
  { intros ->. apply Permutation_sym, Permutation_nil in Hperm. congruence. }
  assert (Hreal' : real_elapsed permuted) by (eapply Permutation_Forall; eassumption).
  set (qs := map real_of (map elapsed samples)).
  set (qs' := map real_of (map elapsed permuted)).
  pose proof (real_elapsed_values samples Hreal) as Hqs. fold qs in Hqs.
  pose proof (real_elapsed_values permuted Hreal') as Hqs'. fold qs' in Hqs'.
  assert (Hpq : Permutation qs qs') by (unfold qs, qs'; do 2 apply Permutation_map; exact Hperm).
  assert (Hq : qs <> []).
  { intros E. apply (f_equal (@List.length Q)) in E. unfold qs in E.
    rewrite !length_map in E. destruct samples; [congruence | discriminate]. }
  assert (Hq' : qs' <> []).
  { intros E. rewrite E in Hpq. apply Permutation_sym, Permutation_nil in Hpq. congruence. }
  destruct (aggregate_samples_nonempty samples Hne) as (avg & p95 & Havg & Hp95 & Ha).
  destruct (aggregate_samples_nonempty permuted Hne') as (avg' & p95' & Havg' & Hp95' & Hb).
  pose proof (len_perm _ _ Hperm) as Hlen. pose proof (len_perm _ _ Hpq) as Hlenq.
  pose proof (count_errors_perm _ _ Hperm) as Herr.
  assert (Hsum : (fold_left Qplus qs 0 == fold_left Qplus qs' 0)%Q).
  { rewrite !fold_left_Qplus, (sum_perm _ _ Hpq). reflexivity. }
  do 2 eexists. split; [exact Ha|]. split; [exact Hb|].
  unfold same_aggregate_but_throughput. cbn [count avg_ms p95_ms errors agg_success err_rate].
  split; [exact Hlen|]. split; [|split; [|split; [|split]]].
  - rewrite Hqs, mean_Fin in Havg by exact Hq. rewrite Hqs', mean_Fin in Havg' by exact Hq'.
    injection Havg as <-. injection Havg' as <-. cbn [feq].
    rewrite Hsum, Hlenq. reflexivity.
  - pose proof (percentile_perm qs qs' 95 Hpq) as H.
    rewrite <- Hqs, <- Hqs', Hp95, Hp95' in H. exact H.
  - exact Herr.
  - rewrite Hlen, Herr. reflexivity.
  - cbn [feq]. unfold err_rate_of. rewrite Hlen, Herr. reflexivity.
Qed.

Lemma aggregate_permutation_invariant_witness :
  exists a b,
    aggregate_samples [mk_sample (Fin 100) true "s"; mk_sample (Fin 300) false "s"] = Ok a
    /\ aggregate_samples [mk_sample (Fin 300) false "s"; mk_sample (Fin 100) true "s"] = Ok b
    /\ same_aggregate_but_throughput a b.
Proof.
  apply aggregate_permutation_invariant; [apply perm_swap | repeat constructor].
Defined.

(** * Further properties of the baseline *)

Lemma valid_p95_pos (name : string) (h : history_row) (q : Q) :
  valid_p95 name h = Some q -> (0 < q)%Q.
Proof.
  unfold valid_p95. destruct (decide _); [|discriminate].
  destruct (h_p95_ms h) as [|q']; [discriminate|].
  destruct (Qltb 0 q') eqn:E; [|discriminate].
  intros H. injection H as <-. apply Qltb_lt. exact E.
Qed.

Lemma matching_valid_p95_pos (history : list history_row) (name : string) :
  Forall (fun q => (0 < q)%Q) (matching_valid_p95 history name).
Proof.
  induction history as [|h t IH]; [constructor|].
  cbn [matching_valid_p95]. destruct (valid_p95 name h) as [q|] eqn:E; [|exact IH].
  constructor; [eapply valid_p95_pos; exact E | exact IH].
Qed.

Lemma last_n_Forall {A : Type} (P : A -> Prop) (n : nat) (l : list A) :
  Forall P l -> Forall P (last_n n l).
Proof.
  intros H. unfold last_n.
  rewrite <- (firstn_skipn (List.length l - n) l) in H.
  apply List.Forall_app in H. exact (proj2 H).
Qed.

Lemma sum_pos (l : list Q) :
  l <> [] -> Forall (fun q => (0 < q)%Q) l -> (0 < fold_right Qplus 0 l)%Q.
Proof.
  intros Hne H. induction H as [|q t Hq Ht IH]; [congruence|].
  cbn [fold_right]. destruct t as [|q' t'].
  - cbn [fold_right]. lra.
  - assert (0 < fold_right Qplus 0 (q' :: t'))%Q by (apply IH; discriminate). lra.
Qed.

Lemma baseline_p95_cases (history : list history_row) (name : string) :
  exists b, baseline_p95 history name = Ok b
            /\ (matching_valid_p95 history name = [] -> b = NaN)
            /\ (matching_valid_p95 history name <> [] ->
                exists q, b = Fin q /\ (0 < q)%Q).
Proof.
  unfold baseline_p95. rewrite hist_vals_p95, moving_average_Fin.
  pose proof (matching_valid_p95_pos history name) as Hpos.
  destruct (matching_valid_p95 history name) as [|q0 t] eqn:E.
  - eexists. split; [reflexivity|]. split; [reflexivity | congruence].
  - rewrite <- E in *.
    assert (Hne : matching_valid_p95 history name <> []) by (rewrite E; discriminate).
    pose proof (last_n_nonempty 10 _ ltac:(lia) Hne) as Hl.
    pose proof (last_n_Forall _ 10 _ Hpos) as Hlp.
    destruct (last_n 10 (matching_valid_p95 history name)) as [|q l] eqn:El; [congruence|].
    eexists. split; [reflexivity|]. split; [congruence|]. intros _.
    eexists. split; [reflexivity|].
    pose proof (sum_pos (q :: l) Hl Hlp) as Hs.
    pose proof (len_pos (q :: l) Hl) as Hn.
    rewrite fold_left_Qplus, Qplus_0_l.
    apply Qlt_shift_div_l; [|lra].
    change 0%Q with (inject_Z 0). rewrite <- Zlt_Qlt. lia.
Qed.

(** X10: the baseline is NaN when the history has no valid record of the
    scenario, and a strictly positive number otherwise: the test
    [avg_p95 > 0] of the classifier never fails on a baseline that is a
    number. *)
Theorem baseline_nan_or_positive (history : list history_row) (name : string) :
  exists b, baseline_p95 history name = Ok b
            /\ (matching_valid_p95 history name = [] -> b = NaN)
            /\ (matching_valid_p95 history name <> [] ->
                exists q, b = Fin q /\ (0 < q)%Q).
Proof. apply baseline_p95_cases. Qed.

Lemma hist_vals_app (h1 h2 : list history_row) (name : string) :
  hist_vals (h1 ++ h2) name = hist_vals h1 name ++ hist_vals h2 name.
Proof. unfold hist_vals. apply List.filter_app. Qed.

Lemma baseline_skip_record
        (before after : list history_row) (h : history_row) (name : string) :
  h_scenario h <> name \/ isnan (h_p95_ms h) = true \/ fle (h_p95_ms h) (of_int 0) = true ->
  baseline_p95 (before ++ h :: after) name = baseline_p95 (before ++ after) name.
Proof.
  intros H. unfold baseline_p95. do 2 f_equal.
  rewrite !hist_vals_app. f_equal. unfold hist_vals at 1. cbn [List.filter].
  rewrite valid_p95_keep.
  destruct (valid_p95 name h) as [q|] eqn:E; [|reflexivity].
  exfalso. pose proof (valid_p95_pos _ _ _ E) as Hq.
  pose proof (valid_p95_value _ _ _ E) as Hv. unfold valid_p95 in E.
  destruct (decide (h_scenario h = name)) as [En|En]; [|discriminate].
  destruct H as [H|[H|H]].
  - contradiction.
  - rewrite Hv in H. discriminate.
  - rewrite Hv in H. cbn in H. apply Qle_bool_iff in H.
    change (inject_Z 0) with 0%Q in H. lra.
Qed.

(** X11: a history record of another scenario, or one whose p95 is NaN or
    not above 0, does not change the baseline, wherever it stands in the
    history. *)
Theorem baseline_ignores_foreign_and_invalid_records
        (before after : list history_row) (h : history_row) (name : string) :
  h_scenario h <> name \/ isnan (h_p95_ms h) = true \/ fle (h_p95_ms h) (of_int 0) = true ->
  baseline_p95 (before ++ h :: after) name = baseline_p95 (before ++ after) name.
Proof. apply baseline_skip_record. Qed.

Lemma baseline_ignores_foreign_and_invalid_records_witness :
  baseline_p95 ([history_row_of "s" (Fin 100)] ++ history_row_of "s" NaN
                  :: [history_row_of "s" (Fin 200)]) "s"
  = baseline_p95 ([history_row_of "s" (Fin 100)] ++ [history_row_of "s" (Fin 200)]) "s".
Proof.
  apply baseline_ignores_foreign_and_invalid_records. right. left. reflexivity.
Defined.

Lemma last_n_app {A : Type} (n : nat) (l1 l2 : list A) :
  (n <= List.length l2)%nat -> last_n n (l1 ++ l2) = last_n n l2.
Proof.
  intros H. unfold last_n. rewrite length_app, skipn_app.
  replace (List.length l1 + List.length l2 - n - List.length l1)%nat
    with (List.length l2 - n)%nat by lia.
  rewrite skipn_all2 by lia. reflexivity.
Qed.

Lemma matching_valid_p95_app (h1 h2 : list history_row) (name : string) :
  matching_valid_p95 (h1 ++ h2) name
  = matching_valid_p95 h1 name ++ matching_valid_p95 h2 name.
Proof.
  induction h1 as [|h t IH]; [reflexivity|].
  cbn [app matching_valid_p95]. destruct (valid_p95 name h); rewrite IH; reflexivity.
Qed.

(** X12: only the ten most recent valid records of a scenario count: when
    the recent part of the history holds at least ten of them, everything
    older is ignored. *)
Theorem baseline_depends_on_last_10_only
        (older recent : list history_row) (name : string) :
  (10 <= List.length (matching_valid_p95 recent name))%nat ->
  baseline_p95 (older ++ recent) name = baseline_p95 recent name.
Proof.
  intros H. unfold baseline_p95.
  rewrite !hist_vals_p95, !moving_average_Fin, matching_valid_p95_app.
  rewrite last_n_app by exact H. reflexivity.
Qed.

Lemma baseline_depends_on_last_10_only_witness :
  baseline_p95 ([history_row_of "s" (Fin 1000)] ++ history_1_to_15) "s"
  = baseline_p95 history_1_to_15 "s".
Proof.
  apply baseline_depends_on_last_10_only. vm_compute. lia.
Defined.

(** * Further properties of the classifier *)

Lemma delta_above (b c t : Q) :
  (0 < b)%Q -> ((t < (c - b) / b * 100)%Q <-> ((1 + t / 100) * b < c)%Q).
Proof.
  intros Hb. set (d := ((c - b) / b)%Q).
  assert (Hd : (d * b == c - b)%Q) by (unfold d; field; lra).
  assert (H1 : ((1 + t / 100) * b == b + t / 100 * b)%Q) by ring.
  rewrite H1.
  assert (H2 : ((t / 100 < d)%Q <-> (t / 100 * b < d * b)%Q))
    by (symmetry; apply Qmult_lt_r; exact Hb).
  assert (H3 : (t / 100 * 100 == t)%Q) by (field; discriminate).
  split; intros H.
  - assert (t / 100 < d)%Q by lra. apply H2 in H0. lra.
  - assert (t / 100 * b < d * b)%Q by lra. apply H2 in H0. lra.
Qed.

Lemma band_thresholds (b c : Q) :
  (0 < b)%Q ->
  let cl := band ((c - b) / b * 100) in
  (c_note cl = "BLOCK (>20%)"%string <-> (1.2 * b < c)%Q)
  /\ (c_level cl = red <-> (1.1 * b < c)%Q)
  /\ (c_level cl = yellow <-> (1.05 * b < c)%Q /\ (c <= 1.1 * b)%Q)
  /\ (c_level cl = green <-> (c <= 1.05 * b)%Q).
Proof.
  intros Hb. cbv zeta.
  pose proof (delta_above b c 20 Hb) as H20.
  pose proof (delta_above b c 10 Hb) as H10.
  pose proof (delta_above b c 5 Hb) as H5.
  assert (E20 : ((1 + 20 / 100) * b == 1.2 * b)%Q) by (apply Qmult_comp; reflexivity).
  assert (E10 : ((1 + 10 / 100) * b == 1.1 * b)%Q) by (apply Qmult_comp; reflexivity).
  assert (E5 : ((1 + 5 / 100) * b == 1.05 * b)%Q) by (apply Qmult_comp; reflexivity).
  rewrite E20 in H20. rewrite E10 in H10. rewrite E5 in H5.
  set (d := ((c - b) / b * 100)%Q) in *. unfold band.
  destruct (Qltb 20 d) eqn:D20; [|destruct (Qltb 10 d) eqn:D10; [|destruct (Qltb 5 d) eqn:D5]];
    qcmp; cbn [c_note c_level];
    repeat split; try discriminate; try reflexivity; intros;
    try (exfalso; lra); try lra.
  all: try (apply H20 in D20); try (apply H10 in D10); try (apply H5 in D5);
    try (exfalso; lra); try lra.
Qed.

(** X14: the classifier is monotone in the current p95: against the same
    baseline b > 0, a larger current value never gets a lower level, and
    once a value is classified "BLOCK (>20%)" every larger one is. *)
Theorem classifier_monotone_in_current (b c c' : Q) :
  (0 < b)%Q -> (c <= c')%Q ->
  exists cl cl',
    classify (Fin b) (Fin c) = Ok cl /\ classify (Fin b) (Fin c') = Ok cl'
    /\ level_rank (c_level cl) <= level_rank (c_level cl')
    /\ (c_note cl = "BLOCK (>20%)"%string -> c_note cl' = "BLOCK (>20%)"%string).
Proof.
  intros Hb Hcc. do 2 eexists.
  split; [apply classify_valid; exact Hb|]. split; [apply classify_valid; exact Hb|].
  destruct (band_thresholds b c Hb) as (Hn & Hr & Hy & Hg).
  destruct (band_thresholds b c' Hb) as (Hn' & Hr' & Hy' & Hg').
  split.
  - destruct (c_level (band ((c - b) / b * 100))) eqn:E,
             (c_level (band ((c' - b) / b * 100))) eqn:E'; cbn [level_rank]; try lia;
      exfalso.
    + pose proof (proj1 Hy eq_refl). pose proof (proj1 Hg' eq_refl). lra.
    + pose proof (proj1 Hr eq_refl). pose proof (proj1 Hg' eq_refl). lra.
    + pose proof (proj1 Hr eq_refl). pose proof (proj1 Hy' eq_refl). lra.
  - intros H. apply Hn'. apply Hn in H. lra.
Qed.

Lemma classifier_monotone_in_current_witness :
  exists cl cl',
    classify (Fin 100) (Fin 108) = Ok cl /\ classify (Fin 100) (Fin 115) = Ok cl'
    /\ level_rank (c_level cl) <= level_rank (c_level cl').
Proof.
  destruct (classifier_monotone_in_current 100 108 115 eq_refl)
    as (cl & cl' & H1 & H2 & H3 & _); [discriminate|].
  exists cl, cl'. repeat split; assumption.
Defined.

(** * Further properties of the run *)

Lemma dict_set_fresh {V : Type} (d : list (string * V)) (k : string) (v : V) :
  ~ In k (map fst d) -> dict_set d k v = d ++ [(k, v)].
Proof.
  induction d as [|[k' v'] t IH]; intros H; [reflexivity|].
  cbn [dict_set]. destruct (decide (k' = k)) as [->|Hne].
  - exfalso. apply H. left. reflexivity.
  - cbn [app]. rewrite IH; [reflexivity|]. intros Hin. apply H. right. exact Hin.
Qed.

Lemma dict_set_keys {V : Type} (d : list (string * V)) (k : string) (v : V) :
  In k (map fst d) -> map fst (dict_set d k v) = map fst d.
Proof.
  induction d as [|[k' v'] t IH]; intros H; [destruct H|].
  cbn [dict_set]. destruct (decide (k' = k)) as [->|Hne]; [reflexivity|].
  cbn [map fst]. rewrite IH; [reflexivity|].
  destruct H as [H|H]; [cbn in H; congruence | exact H].
Qed.

Lemma dict_set_NoDup {V : Type} (d : list (string * V)) (k : string) (v : V) :
  List.NoDup (map fst d) -> List.NoDup (map fst (dict_set d k v)).
Proof.
  intros H. destruct (in_dec string_dec k (map fst d)) as [Hin|Hin].
  - rewrite dict_set_keys by exact Hin. exact H.
  - rewrite dict_set_fresh by exact Hin. rewrite map_app. cbn [map fst].
    apply (Permutation_NoDup (l := k :: map fst d));
      [apply Permutation_cons_append | constructor; assumption].
Qed.

Lemma evaluate_scenario_entry (history : list history_row) (name : string)
      (agg : aggregate) (lv : level) (v : scenario_summary) :
  evaluate_scenario history name agg = Ok (lv, v) ->
  lv = s_level v /\ entry_of history name agg v.
Proof.
  unfold evaluate_scenario. destruct (baseline_p95 history name) as [b|e] eqn:Eb;
    cbn [bind]; [|discriminate].
  destruct (classify b (p95_ms agg)) as [cl|e] eqn:Ec; cbn [bind]; [|discriminate].
  intros H. injection H as <- <-. split; [reflexivity|].
  unfold entry_of.
  cbn [s_avg_ms s_p95_ms s_throughput s_err_rate s_baseline_p95_ms s_delta_pct
       s_level s_note].
  do 4 (split; [reflexivity|]). split; [exact Eb|].
  exists cl. split; [exact Ec|]. repeat split.
Qed.

Lemma fold_worse_app (ls : list level) (w : level) :
  forall l, fold_left (fun worst_level lvl => worse lvl worst_level) (ls ++ [l]) w
            = worse l (fold_left (fun worst_level lvl => worse lvl worst_level) ls w).
Proof. intros l. rewrite fold_left_app. reflexivity. Qed.

(** The loop over scenarios with distinct names that are not yet in the
    summary appends one entry per scenario, in order, and folds their levels
    into the worst level. *)
Lemma evaluate_all_entries (history : list history_row)
      (scenarios : list (string * aggregate)) :
  List.NoDup (map fst scenarios) ->
  forall (worst : level) (summary : list (string * scenario_summary))
         (worst' : level) (summary' : list (string * scenario_summary)),
    (forall k, In k (map fst scenarios) -> ~ In k (map fst summary)) ->
    evaluate_all history scenarios worst summary = Ok (worst', summary') ->
    exists entries,
      summary' = summary ++ entries
      /\ Forall2 (fun sc e => fst e = fst sc /\ entry_of history (fst sc) (snd sc) (snd e))
                 scenarios entries
      /\ worst' = fold_left (fun worst_level lvl => worse lvl worst_level)
                            (map (fun e => s_level (snd e)) entries) worst.
Proof.
  induction scenarios as [|[name agg] rest IH]; intros Hnd worst summary worst' summary' Hfresh Hrun.
  - cbn in Hrun. injection Hrun as <- <-. exists []. rewrite app_nil_r.
    split; [reflexivity|]. split; [constructor | reflexivity].
  - cbn [evaluate_all] in Hrun.
    destruct (evaluate_scenario history name agg) as [[lv v]|e] eqn:E;
      cbn [bind fst snd] in Hrun; [|discriminate].
    destruct (evaluate_scenario_entry _ _ _ _ _ E) as [-> Hentry].
    cbn [map fst] in Hnd. inversion Hnd as [|? ? Hname Hrest]; subst.
    rewrite dict_set_fresh in Hrun by (apply Hfresh; left; reflexivity).
    assert (Hfresh' : forall k, In k (map fst rest) ->
                                ~ In k (map fst (summary ++ [(name, v)]))).
    { intros k Hk Hin. rewrite map_app in Hin. apply in_app_or in Hin as [Hin|Hin].
      - apply (Hfresh k); [right; exact Hk | exact Hin].
      - cbn in Hin. destruct Hin as [<-|[]]. contradiction. }
    destruct (IH Hrest _ _ _ _ Hfresh' Hrun) as (entries & -> & Hall & ->).
    exists ((name, v) :: entries). rewrite <- app_assoc. split; [reflexivity|].
    split; [constructor; [split; [reflexivity | exact Hentry] | exact Hall] | reflexivity].
Qed.

Section RunFacts.

Variable float_of_str : string -> result pyfloat.

Lemma collect_scenarios_NoDup (result_files : list (string * csv_file)) :
  forall scenarios scenarios',
    List.NoDup (map fst scenarios) ->
    collect_scenarios float_of_str result_files scenarios = Ok scenarios' ->
    List.NoDup (map fst scenarios').
Proof.
  induction result_files as [|[name file] rest IH]; intros scenarios scenarios' Hnd Hrun.
  - cbn in Hrun. injection Hrun as <-. exact Hnd.
  - cbn [collect_scenarios] in Hrun.
    destruct (aggregate_samples _) as [agg|e]; cbn [bind] in Hrun; [|discriminate].
    eapply IH; [|exact Hrun]. apply dict_set_NoDup. exact Hnd.
Qed.

Lemma collect_scenarios_nonempty (result_files : list (string * csv_file)) :
  forall scenarios scenarios',
    (result_files <> [] \/ scenarios <> []) ->
    collect_scenarios float_of_str result_files scenarios = Ok scenarios' ->
    scenarios' <> [].
Proof.
  induction result_files as [|[name file] rest IH]; intros scenarios scenarios' Hne Hrun.
  - cbn in Hrun. injection Hrun as <-. destruct Hne; congruence.
  - cbn [collect_scenarios] in Hrun.
    destruct (aggregate_samples _) as [agg|e]; cbn [bind] in Hrun; [|discriminate].
    eapply IH; [|exact Hrun]. right.
    destruct scenarios as [|[k' v'] t]; cbn [dict_set]; [discriminate|].
    destruct (decide (k' = name)); discriminate.
Qed.

(** With distinct file names the first loop yields one aggregate per file,
    in order. *)
Lemma collect_scenarios_entries (result_files : list (string * csv_file)) :
  List.NoDup (map fst result_files) ->
  forall scenarios scenarios',
    (forall k, In k (map fst result_files) -> ~ In k (map fst scenarios)) ->
    collect_scenarios float_of_str result_files scenarios = Ok scenarios' ->
    exists aggs,
      scenarios' = scenarios ++ aggs
      /\ Forall2 (fun rf sc => fst sc = fst rf
                               /\ aggregate_samples (read_jmeter_csv float_of_str (snd rf))
                                  = Ok (snd sc))
                 result_files aggs.
Proof.
  induction result_files as [|[name file] rest IH]; intros Hnd scenarios scenarios' Hfresh Hrun.
  - cbn in Hrun. injection Hrun as <-. exists []. rewrite app_nil_r.
    split; [reflexivity | constructor].
  - cbn [collect_scenarios] in Hrun.
    destruct (aggregate_samples (read_jmeter_csv float_of_str file)) as [agg|e] eqn:E;
      cbn [bind] in Hrun; [|discriminate].
    cbn [map fst] in Hnd. inversion Hnd as [|? ? Hname Hrest]; subst.
    rewrite dict_set_fresh in Hrun by (apply Hfresh; left; reflexivity).
    assert (Hfresh' : forall k, In k (map fst rest) ->
                                ~ In k (map fst (scenarios ++ [(name, agg)]))).
    { intros k Hk Hin. rewrite map_app in Hin. apply in_app_or in Hin as [Hin|Hin].
      - apply (Hfresh k); [right; exact Hk | exact Hin].
      - cbn in Hin. destruct Hin as [<-|[]]. contradiction. }
    destruct (IH Hrest _ _ Hfresh' Hrun) as (aggs & -> & Hall).
    exists ((name, agg) :: aggs). rewrite <- app_assoc. split; [reflexivity|].
    constructor; [split; [reflexivity | exact E] | exact Hall].
Qed.

(** What [main] returns on at least one result file. *)
Lemma main_structure (result_files : list (string * csv_file)) (history : list history_row) :
  result_files <> [] ->
  exists scenarios entries,
    collect_scenarios float_of_str result_files [] = Ok scenarios
    /\ scenarios <> []
    /\ Forall2 (fun sc e => fst e = fst sc /\ entry_of history (fst sc) (snd sc) (snd e))
               scenarios entries
    /\ main float_of_str result_files history
       = Ok {| out_scenarios := entries;
               out_overall := Some (worst_of (map (fun e => s_level (snd e)) entries));
               exit_code := if should_block entries then 2 else 0 |}.
Proof.
  intros Hne.
  destruct (collect_scenarios_total float_of_str result_files []) as [sc Hsc].
  pose proof (collect_scenarios_NoDup result_files [] sc (List.NoDup_nil _) Hsc) as Hnd.
  pose proof (collect_scenarios_nonempty _ _ _ (or_introl Hne) Hsc) as Hscne.
  destruct (evaluate_all_total history sc green []) as (w & sm & Hev & _); [constructor|].
  destruct (evaluate_all_entries history sc Hnd green [] w sm) as (entries & -> & Hall & ->);
    [intros k _ [] | exact Hev |].
  exists sc, entries. split; [exact Hsc|]. split; [exact Hscne|]. split; [exact Hall|].
  unfold main. destruct result_files as [|rf rest]; [congruence|].
  rewrite Hsc. cbn [bind]. rewrite Hev. reflexivity.
Qed.

(** Every entry of the summary was built by the loop for its own name. *)
Lemma main_entry_of (result_files : list (string * csv_file)) (history : list history_row)
      (out : run_output) (name : string) (v : scenario_summary) :
  main float_of_str result_files history = Ok out ->
  In (name, v) (out_scenarios out) ->
  exists agg, entry_of history name agg v.
Proof.
  intros Hmain Hin. destruct result_files as [|rf rest] eqn:Ef.
  - cbn in Hmain. injection Hmain as <-. destruct Hin.
  - rewrite <- Ef in *. assert (Hne : result_files <> []) by (rewrite Ef; discriminate).
    destruct (main_structure result_files history Hne) as (sc & entries & _ & _ & Hall & Hm).
    rewrite Hm in Hmain. injection Hmain as <-. cbn [out_scenarios] in Hin.
    clear -Hall Hin. induction Hall as [|[n a] [n' v'] scs es [Hn He] Hall IH]; [destruct Hin|].
    destruct Hin as [Hin|Hin].
    + injection Hin as -> ->. cbn in Hn, He. subst n. exists a. exact He.
    + apply IH. exact Hin.
Qed.

End RunFacts.

Lemma worse_rank (a b : level) :
  level_rank (worse a b) = Z.max (level_rank a) (level_rank b).
Proof. destruct a, b; reflexivity. Qed.

Lemma worse_cases (a b : level) : worse a b = a \/ worse a b = b.
Proof. destruct a, b; cbn; tauto. Qed.

Lemma fold_worse_max (ls : list level) (w : level) :
  let r := fold_left (fun worst_level lvl => worse lvl worst_level) ls w in
  level_rank w <= level_rank r
  /\ Forall (fun l => level_rank l <= level_rank r) ls
  /\ (r = w \/ In r ls).
Proof.
  revert w. induction ls as [|l t IH]; intros w; cbn [fold_left].
  - split; [lia|]. split; [constructor | left; reflexivity].
  - destruct (IH (worse l w)) as (H1 & H2 & H3). rewrite worse_rank in H1.
    split; [lia|]. split; [constructor; [lia | exact H2]|].
    destruct H3 as [H3|H3]; [|right; right; exact H3].
    rewrite H3. destruct (worse_cases l w) as [E|E]; rewrite E; [right; left | left]; reflexivity.
Qed.

Lemma level_rank_inj (a b : level) : level_rank a = level_rank b -> a = b.
Proof. destruct a, b; cbn; intros H; try reflexivity; lia. Qed.

Section RunProperties.

Variable float_of_str : string -> result pyfloat.

(** X15: the run returns the gating exit code 2 exactly when, for some
    scenario of the summary, the baseline is a number b > 0 and the current
    p95 is a number above 1.2 b. *)
Theorem gating_blocks_iff_p95_above_120_percent
        (result_files : list (string * csv_file)) (history : list history_row) :
  exists out,
    main float_of_str result_files history = Ok out
    /\ (exit_code out = 2 <->
        exists name v b c,
          In (name, v) (out_scenarios out)
          /\ s_baseline_p95_ms v = Fin b /\ s_p95_ms v = Fin c
          /\ (0 < b)%Q /\ (1.2 * b < c)%Q).
Proof.
  destruct (main_total float_of_str result_files history) as (out & Hmain & Hok & Hcode).
  exists out. split; [exact Hmain|].
  assert (Hexit : exit_code out = 2 <-> should_block (out_scenarios out) = true).
  { rewrite Hcode. destruct (should_block (out_scenarios out)); split; congruence. }
  rewrite Hexit, (should_block_iff _ Hok). split.
  - intros (name & v & Hin & Hnote).
    destruct (main_entry_of float_of_str _ _ _ _ _ Hmain Hin)
      as (agg & _ & _ & _ & _ & _ & cl & Hcl & _ & _ & Hn).
    rewrite Hn in Hnote.
    destruct (negb (isnan (s_baseline_p95_ms v)) && fgt (s_baseline_p95_ms v) (of_int 0)
              && negb (isnan (s_p95_ms v))) eqn:G.
    + apply guard_true in G as (b & c & Eb & Ec & Hb).
      rewrite Eb, Ec, (classify_valid b c Hb) in Hcl. injection Hcl as <-.
      exists name, v, b, c. repeat split; try assumption.
      apply (band_thresholds b c Hb). exact Hnote.
    + apply guard_false in G. rewrite (classify_no_baseline _ _ G) in Hcl.
      injection Hcl as <-. cbn in Hnote. discriminate.
  - intros (name & v & b & c & Hin & Eb & Ec & Hb & Hc).
    exists name, v. split; [exact Hin|].
    destruct (main_entry_of float_of_str _ _ _ _ _ Hmain Hin)
      as (agg & _ & _ & _ & _ & _ & cl & Hcl & _ & _ & Hn).
    rewrite Eb, Ec, (classify_valid b c Hb) in Hcl. injection Hcl as <-.
    rewrite Hn. apply (band_thresholds b c Hb). exact Hc.
Qed.

Lemma main_overall_level
        (result_files : list (string * csv_file)) (history : list history_row) :
  exists out,
    main float_of_str result_files history = Ok out
    /\ (result_files = [] -> out_overall out = None /\ out_scenarios out = [])
    /\ (result_files <> [] ->
        exists overall,
          out_overall out = Some overall
          /\ (forall name v, In (name, v) (out_scenarios out) ->
                             level_rank (s_level v) <= level_rank overall)
          /\ (exists name v, In (name, v) (out_scenarios out) /\ s_level v = overall)).
Proof.
  destruct result_files as [|rf rest] eqn:Ef.
  - eexists. split; [reflexivity|]. split; [intros _; split; reflexivity | congruence].
  - rewrite <- Ef. assert (Hne : result_files <> []) by (rewrite Ef; discriminate).
    destruct (main_structure float_of_str result_files history Hne)
      as (sc & entries & _ & Hsc & Hall & Hm).
    eexists. split; [exact Hm|]. split; [congruence|]. intros _.
    cbn [out_overall out_scenarios]. eexists. split; [reflexivity|].
    unfold worst_of.
    destruct (fold_worse_max (map (fun e => s_level (snd e)) entries) green) as (_ & Hmax & Hin).
    cbv zeta in Hmax, Hin.
    set (w := fold_left _ _ green) in *. split.
    + intros name v Hv. rewrite List.Forall_forall in Hmax. apply Hmax.
      apply in_map_iff. exists (name, v). split; [reflexivity | exact Hv].
    + assert (Hent : entries <> []).
      { intros ->. inversion Hall. congruence. }
      destruct Hin as [Hw|Hw].
      * destruct entries as [|[n v] es]; [congruence|]. exists n, v.
        split; [left; reflexivity|].
        rewrite List.Forall_forall in Hmax.
        assert (H : level_rank (s_level v) <= level_rank w)
          by (apply Hmax; left; reflexivity).
        apply level_rank_inj. rewrite Hw in *. cbn [level_rank] in *.
        destruct (s_level v); cbn [level_rank] in *; lia.
      * apply in_map_iff in Hw as ([n v] & Hv & Hw). exists n, v. split; assumption.
Qed.

(** X16: with at least one result file the overall level is the worst
    level of the summary: no entry has a higher level, and some entry has
    exactly that level.  Without result files there is no overall level. *)
Theorem overall_level_is_worst_entry
        (result_files : list (string * csv_file)) (history : list history_row) :
  exists out,
    main float_of_str result_files history = Ok out
    /\ (result_files = [] -> out_overall out = None /\ out_scenarios out = [])
    /\ (result_files <> [] ->
        exists overall,
          out_overall out = Some overall
          /\ (forall name v, In (name, v) (out_scenarios out) ->
                             level_rank (s_level v) <= level_rank overall)
          /\ (exists name v, In (name, v) (out_scenarios out) /\ s_level v = overall)).
Proof. apply main_overall_level. Qed.



(** X17: a run that returns the gating exit code 2 has the overall level
    red, hence the "ALERT" badge in the red colour; a run whose overall
    level is green or yellow returns 0. *)
Theorem blocked_run_is_red
        (result_files : list (string * csv_file)) (history : list history_row) :
  exists out,
    main float_of_str result_files history = Ok out
    /\ (exit_code out = 2 ->
        out_overall out = Some red
        /\ option_map badge_text (out_overall out) = Some "ALERT"%string
        /\ option_map badge_color (out_overall out) = Some "#e05d44"%string)
    /\ (out_overall out <> Some red -> exit_code out = 0).
Proof.
  destruct (main_total float_of_str result_files history) as (out & Hmain & Hok & Hcode).
  exists out. split; [exact Hmain|].
  assert (Hred : exit_code out = 2 -> out_overall out = Some red).
  { intros H2.
    assert (Hb : should_block (out_scenarios out) = true).
    { rewrite Hcode in H2. destruct (should_block (out_scenarios out)); congruence. }
    apply (should_block_iff _ Hok) in Hb as (name & v & Hin & Hnote).
    assert (Hv : entry_ok v).
    { rewrite List.Forall_forall in Hok. apply Hok. unfold dict_values.
      apply in_map_iff. exists (name, v). split; [reflexivity | exact Hin]. }
    assert (Hlv : s_level v = red).
    { unfold entry_ok, well_classified in Hv. rewrite Hnote in Hv.
      destruct Hv as [[H _]|[[_ H]|[[_ H]|[[_ H]|[_ H]]]]]; [exact H | discriminate ..]. }
    destruct (main_overall_level result_files history) as (out' & Hmain' & Hnone & Hsome).
    rewrite Hmain in Hmain'. injection Hmain' as <-.
    destruct result_files as [|rf rest] eqn:Ef.
    - destruct (Hnone eq_refl) as [_ He]. rewrite He in Hin. destruct Hin.
    - destruct Hsome as (overall & Ho & Hmax & _); [discriminate|].
      rewrite Ho. f_equal. apply level_rank_inj.
      pose proof (Hmax name v Hin) as Hle. rewrite Hlv in Hle. cbn [level_rank] in *.
      destruct overall; cbn [level_rank] in *; lia. }
  split.
  - intros H2. rewrite (Hred H2). repeat split.
  - intros Hnr. destruct (should_block (out_scenarios out)) eqn:Eb; [|exact Hcode].
    exfalso. apply Hnr, Hred. exact Hcode.
Qed.

(** X18: an entry of the summary has the note "no baseline" exactly when
    the history holds no valid record of its scenario or the current p95 of
    the scenario is NaN. *)
Theorem no_baseline_note_iff
        (result_files : list (string * csv_file)) (history : list history_row) :
  exists out,
    main float_of_str result_files history = Ok out
    /\ forall name v,
        In (name, v) (out_scenarios out) ->
        (s_note v = "no baseline"%string <->
         matching_valid_p95 history name = [] \/ isnan (s_p95_ms v) = true).
Proof.
  destruct (main_total float_of_str result_files history) as (out & Hmain & _ & _).
  exists out. split; [exact Hmain|]. intros name v Hin.
  destruct (main_entry_of float_of_str _ _ _ _ _ Hmain Hin)
    as (agg & _ & _ & _ & _ & Hbase & cl & Hcl & _ & _ & Hn).
  destruct (baseline_p95_cases history name) as (b & Hb & Hnone & Hsome).
  rewrite Hbase in Hb. injection Hb as <-. rewrite Hn.
  destruct (negb (isnan (s_baseline_p95_ms v)) && fgt (s_baseline_p95_ms v) (of_int 0)
            && negb (isnan (s_p95_ms v))) eqn:G.
  - pose proof G as G'. apply guard_true in G' as (b & c & Eb & Ec & Hb).
    rewrite Eb, Ec, (classify_valid b c Hb) in Hcl. injection Hcl as <-.
    split.
    + intros H. exfalso. unfold band in H.
      destruct (Qltb 20 _); [discriminate|]. destruct (Qltb 10 _); [discriminate|].
      destruct (Qltb 5 _); discriminate.
    + intros [H|H]; exfalso.
      * rewrite (Hnone H) in Eb. discriminate.
      * rewrite Ec in H. discriminate.
  - pose proof G as G'. apply guard_false in G'.
    rewrite (classify_no_baseline _ _ G') in Hcl. injection Hcl as <-.
    split; [|reflexivity]. intros _.
    destruct (matching_valid_p95 history name) as [|q0 t] eqn:Em; [left; reflexivity|].
    right. destruct Hsome as (q & Eq & Hq); [discriminate|].
    destruct G' as [H|[H|H]].
    + rewrite Eq in H. discriminate.
    + rewrite Eq in H. cbn in H. apply Qle_bool_iff in H.
      change (inject_Z 0) with 0%Q in H. exfalso. lra.
    + exact H.
Qed.

End RunProperties.

Section RunProperties2.

Variable float_of_str : string -> result pyfloat.

(** X19: when the history holds no valid record at all (a first run, a
    missing history file, or only NaN and non-positive p95 values), every
    entry is green with the note "no baseline", the overall level is green
    and the run returns 0. *)
Theorem run_without_valid_history_passes
        (result_files : list (string * csv_file)) (history : list history_row) :
  (forall name, matching_valid_p95 history name = []) ->
  exists out,
    main float_of_str result_files history = Ok out
    /\ exit_code out = 0
    /\ (forall name v, In (name, v) (out_scenarios out) ->
                       s_level v = green /\ s_note v = "no baseline"%string
                       /\ s_baseline_p95_ms v = NaN /\ s_delta_pct v = NaN)
    /\ (result_files <> [] -> out_overall out = Some green).
Proof.
  intros Hnone.
  destruct (main_total float_of_str result_files history) as (out & Hmain & Hok & Hcode).
  exists out. split; [exact Hmain|].
  assert (Hentries : forall name v, In (name, v) (out_scenarios out) ->
                                    s_level v = green /\ s_note v = "no baseline"%string
                                    /\ s_baseline_p95_ms v = NaN /\ s_delta_pct v = NaN).
  { intros name v Hin.
    destruct (main_entry_of float_of_str _ _ _ _ _ Hmain Hin)
      as (agg & _ & _ & _ & _ & Hbase & cl & Hcl & Hd & Hl & Hn).
    destruct (baseline_p95_cases history name) as (b & Hb & Hnan & _).
    rewrite Hbase in Hb. injection Hb as <-. rewrite (Hnan (Hnone name)) in *.
    rewrite (classify_no_baseline NaN (s_p95_ms v) (or_introl eq_refl)) in Hcl.
    injection Hcl as <-. cbn in Hd, Hl, Hn. repeat split; assumption. }
  split; [|split; [exact Hentries|]].
  - rewrite Hcode. destruct (should_block (out_scenarios out)) eqn:Eb; [|reflexivity].
    apply (should_block_iff _ Hok) in Eb as (name & v & Hin & Hnote).
    destruct (Hentries name v Hin) as (_ & Hn & _). congruence.
  - intros Hne.
    destruct (main_overall_level float_of_str result_files history)
      as (out' & Hmain' & _ & Hsome).
    rewrite Hmain in Hmain'. injection Hmain' as <-.
    destruct (Hsome Hne) as (overall & Ho & _ & name & v & Hin & Hlv).
    rewrite Ho, <- Hlv. f_equal. apply (Hentries name v Hin).
Qed.

(** X20: when the result files have distinct names, the summary lists the
    scenarios in the order of the files, one entry per file: the entry
    carries the name of the file, the metrics of the aggregate of its
    samples, the baseline of that name and the classification of the
    aggregate's p95 against that baseline. *)
Theorem summary_follows_result_files
        (result_files : list (string * csv_file)) (history : list history_row) :
  List.NoDup (map fst result_files) ->
  exists out,
    main float_of_str result_files history = Ok out
    /\ Forall2 (fun rf e =>
                  fst e = fst rf
                  /\ exists agg,
                      aggregate_samples (read_jmeter_csv float_of_str (snd rf)) = Ok agg
                      /\ entry_of history (fst rf) agg (snd e))
               result_files (out_scenarios out).
Proof.
  intros Hnd. destruct result_files as [|rf rest] eqn:Ef.
  - eexists. split; [reflexivity | constructor].
  - rewrite <- Ef in *. assert (Hne : result_files <> []) by (rewrite Ef; discriminate).
    destruct (main_structure float_of_str result_files history Hne)
      as (sc & entries & Hsc & _ & Hall & Hm).
    eexists. split; [exact Hm|]. cbn [out_scenarios].
    destruct (collect_scenarios_entries float_of_str result_files Hnd [] sc)
      as (aggs & -> & Haggs); [intros k _ [] | exact Hsc |].
    cbn [app] in Hall. clear -Hall Haggs. revert entries Hall.
    induction Haggs as [|[n f] [n' a] rfs scs [Hn Ha] Haggs IH]; intros entries Hall.
    + inversion Hall. constructor.
    + inversion Hall as [|? [n'' v] ? es [Hn' He] Hall']; subst.
      cbn [fst snd] in *. subst. constructor; [|apply IH; exact Hall'].
      cbn [fst snd]. split; [reflexivity|]. exists a. split; assumption.
Qed.

(** X21: a result file that yields no sample (no header, no row, or only
    rows whose elapsed text does not parse) cannot block the run: with
    distinct file names its entry has p95 NaN, level green and the note
    "no baseline", whatever the history holds. *)
Theorem file_without_samples_never_blocks
        (result_files : list (string * csv_file)) (history : list history_row)
        (name : string) (file : csv_file) :
  List.NoDup (map fst result_files) ->
  In (name, file) result_files ->
  read_jmeter_csv float_of_str file = [] ->
  exists out v,
    main float_of_str result_files history = Ok out
    /\ In (name, v) (out_scenarios out)
    /\ s_p95_ms v = NaN /\ s_level v = green /\ s_note v = "no baseline"%string
    /\ blocks v = false.
Proof.
  intros Hnd Hin Hread.
  assert (Hne : result_files <> []) by (intros ->; destruct Hin).
  destruct (main_structure float_of_str result_files history Hne)
    as (sc & entries & Hsc & _ & Hall & Hm).
  destruct (collect_scenarios_entries float_of_str result_files Hnd [] sc)
    as (aggs & -> & Haggs); [intros k _ [] | exact Hsc |].
  cbn [app] in Hall.
  assert (H : exists v agg, In (name, v) entries
                            /\ aggregate_samples (read_jmeter_csv float_of_str file) = Ok agg
                            /\ entry_of history name agg v).
  { clear -Hall Haggs Hin. revert entries Hall.
    induction Haggs as [|[n f] [n' a] rfs scs [Hn Ha] Haggs IH]; intros entries Hall;
      [destruct Hin|].
    inversion Hall as [|? [n'' v] ? es [Hn' He] Hall']; subst.
    cbn [fst snd] in *. subst. destruct Hin as [Hin|Hin].
    - injection Hin as -> ->. exists v, a. split; [left; reflexivity|]. split; assumption.
    - destruct (IH Hin es Hall') as (v' & agg & H1 & H2). exists v', agg.
      split; [right; exact H1 | exact H2]. }
  destruct H as (v & agg & Hv & Hagg & _ & Hp95 & _ & _ & _ & cl & Hcl & _ & Hl & Hn).
  rewrite Hread in Hagg. cbn in Hagg. injection Hagg as <-. cbn [p95_ms] in Hp95.
  rewrite Hp95 in Hcl.
  rewrite (classify_no_baseline _ NaN (or_intror (or_intror eq_refl))) in Hcl.
  injection Hcl as <-. cbn in Hl, Hn.
  eexists. exists v. split; [exact Hm|]. cbn [out_scenarios].
  split; [exact Hv|]. split; [exact Hp95|]. split; [exact Hl|]. split; [exact Hn|].
  unfold blocks. rewrite Hl. reflexivity.
Qed.

End RunProperties2.

Lemma run_without_valid_history_passes_witness :
  exists out,
    main float_of_decimal [("s"%string, one_sample_file "121")] [] = Ok out
    /\ exit_code out = 0 /\ out_overall out = Some green.
Proof.
  destruct (run_without_valid_history_passes
              float_of_decimal [("s"%string, one_sample_file "121")] [] (fun _ => eq_refl))
    as (out & Hmain & Hcode & _ & Ho).
  exists out. split; [exact Hmain|]. split; [exact Hcode|]. apply Ho. discriminate.
Defined.

Lemma summary_follows_result_files_witness :
  exists out,
    main float_of_decimal
         [("a"%string, one_sample_file "100"); ("b"%string, one_sample_file "200")]
         [history_row_of "a" (Fin 100)] = Ok out
    /\ map fst (out_scenarios out) = ["a"; "b"]%string.
Proof.
  destruct (summary_follows_result_files
              float_of_decimal
              [("a"%string, one_sample_file "100"); ("b"%string, one_sample_file "200")]
              [history_row_of "a" (Fin 100)])
    as (out & Hmain & Hall).
  { repeat constructor; cbn; intuition discriminate. }
  exists out. split; [exact Hmain|].
  inversion Hall as [|? [n1 v1] ? es1 [Hn1 _] Hall1]; subst.
  inversion Hall1 as [|? [n2 v2] ? es2 [Hn2 _] Hall2]; subst.
  inversion Hall2; subst. cbn in Hn1, Hn2. subst. reflexivity.
Defined.

Lemma file_without_samples_never_blocks_witness :
  exists out v,
    main float_of_decimal [("s"%string, mk_csv None [])] [history_row_of "s" (Fin 100)] = Ok out
    /\ In ("s"%string, v) (out_scenarios out)
    /\ s_note v = "no baseline"%string /\ blocks v = false.
Proof.
  destruct (file_without_samples_never_blocks float_of_decimal
              [("s"%string, mk_csv None [])] [history_row_of "s" (Fin 100)]
              "s"%string (mk_csv None []))
    as (out & v & Hmain & Hin & _ & _ & Hn & Hb).
  - repeat constructor. intros [].
  - left. reflexivity.
  - reflexivity.
  - exists out, v. repeat split; assumption.
Defined.

(** * read_history *)

Section HistoryFacts.

Variable float_of_str : string -> result pyfloat.

Lemma fold_history_step (rows : list (gmap string string)) (acc : list history_row) :
  fold_left (history_step float_of_str) rows acc
  = acc ++ flat_map (kept_history float_of_str) rows.
Proof.
  revert acc. induction rows as [|row t IH]; intros acc; cbn [fold_left flat_map].
  - rewrite app_nil_r. reflexivity.
  - rewrite IH. unfold history_step, kept_history.
    destruct (parse_history_row float_of_str row); [rewrite <- app_assoc|]; reflexivity.
Qed.

Lemma read_history_rows (rows : list (gmap string string)) :
  read_history float_of_str (Some rows) = flat_map (kept_history float_of_str) rows.
Proof. unfold read_history. apply fold_history_step. Qed.

Lemma read_history_skip (rows1 rows2 : list (gmap string string)) (row : gmap string string) :
  parse_history_row float_of_str row = None ->
  read_history float_of_str (Some (rows1 ++ row :: rows2))
  = read_history float_of_str (Some (rows1 ++ rows2)).
Proof.
  intros H. rewrite !read_history_rows, !flat_map_app. cbn [flat_map].
  unfold kept_history at 2. rewrite H. reflexivity.
Qed.

End HistoryFacts.

(** X23: a history row that is dropped by [read_history], or that is kept
    but has a p95 that is NaN or not above 0, or belongs to another
    scenario, does not change the baseline of a scenario: the history file
    with that row gives the same baseline as the file without it. *)
Theorem corrupt_history_row_does_not_change_baseline
        (float_of_str : string -> result pyfloat)
        (rows1 rows2 : list (gmap string string)) (row : gmap string string)
        (name : string) :
  (parse_history_row float_of_str row = None
   \/ exists h, parse_history_row float_of_str row = Some h
                /\ (h_scenario h <> name \/ isnan (h_p95_ms h) = true
                    \/ fle (h_p95_ms h) (of_int 0) = true)) ->
  baseline_p95 (read_history float_of_str (Some (rows1 ++ row :: rows2))) name
  = baseline_p95 (read_history float_of_str (Some (rows1 ++ rows2))) name.
Proof.
  intros [H|(h & Hh & Hbad)].
  - rewrite (read_history_skip float_of_str rows1 rows2 row H). reflexivity.
  - rewrite !read_history_rows, !flat_map_app. cbn [flat_map].
    unfold kept_history at 2. rewrite Hh. cbn [app].
    apply baseline_skip_record. exact Hbad.
Qed.

Lemma corrupt_history_row_does_not_change_baseline_witness :
  baseline_p95 (read_history float_of_decimal
                  (Some ([history_row_text "s" "100"] ++ history_row_text "s" "oops"
                           :: [history_row_text "s" "200"]))) "s"
  = baseline_p95 (read_history float_of_decimal
                    (Some ([history_row_text "s" "100"] ++ [history_row_text "s" "200"]))) "s".
Proof.
  apply corrupt_history_row_does_not_change_baseline. left. reflexivity.
Defined.

Example read_history_ex :
  map h_p95_ms (read_history float_of_decimal
                  (Some [history_row_text "s" "100"; history_row_text "s" "oops";
                         history_row_text "t" "200"]))
  = [Fin 100; Fin 200].
Proof. vm_compute. reflexivity. Qed.

(** * moving_average with other windows *)

Lemma py_slice_from_negative {A : Type} (l : list A) (n : Z) :
  0 < n -> py_slice_from l (- n) = skipn (Z.to_nat (len l - n)) l.
Proof.
  intros Hn. unfold py_slice_from.
  replace (- n <? 0) with true by (symmetry; apply Z.ltb_lt; lia).
  f_equal. lia.
Qed.

(** X24: the window of [moving_average].  On a non-empty list a window
    w >= 1 gives the mean of the last w values (of all of them when there
    are fewer); the window 0 gives the mean of the whole list, because
    [values[-0:]] is the whole list; a negative window -w drops the first w
    values and raises StatisticsError when nothing is left.  The empty list
    gives NaN for every window. *)
Theorem moving_average_window (values : list pyfloat) (window : Z) :
  moving_average [] window = Ok NaN
  /\ (values <> [] ->
      (1 <= window ->
       moving_average values window = mean (last_n (Z.to_nat window) values)
       /\ exists m, moving_average values window = Ok m)
      /\ (window = 0 -> moving_average values window = mean values)
      /\ (window < 0 ->
          moving_average values window = mean (skipn (Z.to_nat (- window)) values)
          /\ (len values <= - window ->
              moving_average values window = Raise StatisticsError))).
Proof.
  split; [reflexivity|]. intros Hne.
  pose proof (len_pos values Hne) as Hlen.
  assert (Hma : moving_average values window
                = mean (if len values >? window
                        then py_slice_from values (- window) else values)).
  { destruct values; [congruence | reflexivity]. }
  split; [|split].
  - intros Hw.
    assert (E : moving_average values window = mean (last_n (Z.to_nat window) values)).
    { rewrite Hma. unfold last_n. destruct (Z.gtb_spec (len values) window) as [H|H].
      - rewrite py_slice_from_negative by lia. do 2 f_equal. unfold len. lia.
      - replace (List.length values - Z.to_nat window)%nat with 0%nat
          by (unfold len in H; lia). reflexivity. }
    split; [exact E|]. rewrite E. apply mean_total.
    apply last_n_nonempty; [lia | exact Hne].
  - intros ->. rewrite Hma.
    replace (len values >? 0) with true by (symmetry; apply Z.gtb_lt; lia).
    reflexivity.
  - intros Hw.
    assert (E : moving_average values window = mean (skipn (Z.to_nat (- window)) values)).
    { rewrite Hma.
      replace (len values >? window) with true by (symmetry; apply Z.gtb_lt; lia).
      unfold py_slice_from.
      replace (- window <? 0) with false by (symmetry; apply Z.ltb_ge; lia). reflexivity. }
    split; [exact E|]. intros Hall. rewrite E.
    rewrite skipn_all2 by (unfold len in Hall; lia). reflexivity.
Qed.

Lemma moving_average_window_witness :
  moving_average [Fin 1; Fin 2; Fin 3] 2 = mean (last_n 2 [Fin 1; Fin 2; Fin 3])
  /\ moving_average [Fin 1; Fin 2; Fin 3] 0 = mean [Fin 1; Fin 2; Fin 3]
  /\ moving_average [Fin 1; Fin 2; Fin 3] (-3) = Raise StatisticsError.
Proof.
  destruct (moving_average_window [Fin 1; Fin 2; Fin 3] 2) as [_ H2].
  destruct (moving_average_window [Fin 1; Fin 2; Fin 3] 0) as [_ H0].
  destruct (moving_average_window [Fin 1; Fin 2; Fin 3] (-3)) as [_ Hn].
  split; [apply (proj1 (H2 ltac:(discriminate))); lia|].
  split; [apply (proj1 (proj2 (H0 ltac:(discriminate)))); reflexivity|].
  apply (proj2 (proj2 (Hn ltac:(discriminate)))); [lia | unfold len; simpl; lia].
Defined.
